(** * PMAPI: column-metadata helper, response envelope, CSV streaming and
      schema creation

    A shallow embedding of [api/__init__.py], the start-up and request
    hooks of [application.py], and [util/create_database.py].
    Python lists are lists, payload dictionaries are finite maps keyed by
    strings, code that can raise lives in the [result] monad, and the
    collaborators outside the repository (clock, request context, JSON
    encoder, traceback formatter, CSV dialect) are fields of a [Runtime]
    record or explicit function arguments, so that every theorem holds for
    whatever they return. *)

From Stdlib Require Import PrimFloat Ascii DecimalString.
From stdpp Require Import gmap strings list.

(** ** Python values, exceptions and the few built-ins the code relies on *)

Module Py.

(** Objects that end up in a JSON payload.  [PyClass] is a class object, as
    produced by [type(ex)]. *)
#[warnings="-register-all"]
Inductive value : Type :=
  | PyNone
  | PyBool (b : bool)
  | PyInt (n : Z)
  | PyFloat (x : float)
  | PyStr (s : string)
  | PyList (l : list value)
  | PyDict (d : gmap string value)
  | PyClass (qualname : string).

(** Truth value testing, as used by [if x:] and [not x]. *)
Definition truthy (v : value) : bool :=
  match v with
  | PyNone => false
  | PyBool b => b
  | PyInt n => negb (n =? 0)%Z
  | PyFloat x => negb (PrimFloat.eqb x 0%float)
  | PyStr s => match s with EmptyString => false | String _ _ => true end
  | PyList l => match l with [] => false | _ :: _ => true end
  | PyDict d => negb (bool_decide (size d = 0))
  | PyClass _ => true
  end.

(** [type(v).__name__] *)
Definition type_name (v : value) : string :=
  match v with
  | PyNone => "NoneType"
  | PyBool _ => "bool"
  | PyInt _ => "int"
  | PyFloat _ => "float"
  | PyStr _ => "str"
  | PyList _ => "list"
  | PyDict _ => "dict"
  | PyClass _ => "type"
  end.

(** The classes of [api/__init__.py] deriving from [Exception]:
    [ApiException] itself and its seven subclasses. *)
Inductive kind : Type :=
  | ApiException
  | NotFound
  | MethodNotAllowed
  | InvalidArgument
  | Conflict
  | Timeout
  | InternalError
  | NotImplemented.

#[global] Instance kind_eq_dec : EqDecision kind.
Proof. solve_decision. Defined.

(** Instances of [Exception].  [Api] is an instance of one of the classes
    above, built by [cls(message, details)]; the others are the built-in
    errors the modelled code raises itself, and [OtherError] any further
    [Exception] subclass a collaborator may raise.  These are the errors an
    [except Exception] clause catches; [KeyboardInterrupt], [SystemExit]
    and the like derive from [BaseException] only and are not modelled. *)
Inductive exception : Type :=
  | Api (cls : kind) (message : string) (details : value)
  | ValueError (msg : string)
  | TypeError (msg : string)
  | AttributeError (msg : string)
  | IndexError (msg : string)
  | OtherError (cls : string) (msg : string).

(** [str(e)]: [Exception.__init__] was given one argument, the message. *)
Definition str_exception (e : exception) : string :=
  match e with
  | Api _ message _ => message
  | ValueError msg | TypeError msg | AttributeError msg | IndexError msg => msg
  | OtherError _ msg => msg
  end.

(** [isinstance(e, cls)] for the classes of the API module. *)
Definition isinstance (e : exception) (cls : kind) : bool :=
  match e with
  | Api k _ _ =>
      match cls with
      | ApiException => true
      | _ => bool_decide (k = cls)
      end
  | _ => false
  end.

(** A computation that returns or raises. *)
Inductive result (A : Type) : Type :=
  | Ok (a : A)
  | Raise (e : exception).
Arguments Ok {A} a.
Arguments Raise {A} e.

(** [try: body  except Exception as e: handler(e)] *)
Definition try_except {A} (body : result A) (handler : exception → result A)
  : result A :=
  match body with
  | Ok a => Ok a
  | Raise e => handler e
  end.

(** Arguments of [str.format]. *)
Inductive format_arg : Type :=
  | FStr (s : string)
  | FInt (n : Z).

(** [str(n)] for an integer. *)
Definition str_int (n : Z) : string := NilZero.string_of_int (Z.to_int n).

Fixpoint zeros (n : nat) : string :=
  match n with
  | O => EmptyString
  | S n' => String "0"%char (zeros n')
  end.

(** Zero padding of a formatted integer up to [width]; the sign stays in
    front. *)
Definition zero_pad (width : nat) (s : string) : string :=
  match s with
  | String "-"%char digits => String "-"%char (zeros (width - String.length s) +:+ digits)
  | _ => zeros (width - String.length s) +:+ s
  end.

Definition digit_value (c : ascii) : nat := nat_of_ascii c - 48.

Fixpoint parse_nat (acc : nat) (s : string) : nat :=
  match s with
  | EmptyString => acc
  | String c s' => parse_nat (10 * acc + digit_value c) s'
  end.

(** A replacement field [index:spec] split at its first colon. *)
Fixpoint split_field (field : string) : string * string :=
  match field with
  | EmptyString => (EmptyString, EmptyString)
  | String ":"%char spec => (EmptyString, spec)
  | String c rest => let '(idx, spec) := split_field rest in (String c idx, spec)
  end.

(** The format specs the sources use: none ([{}], [{0}]) and zero padding
    to a width ([{:02}], [{:01}]); a string takes no spec here. *)
Definition apply_spec (spec : string) (a : format_arg) : string :=
  match a, spec with
  | FStr s, _ => s
  | FInt n, String "0"%char width => zero_pad (parse_nat 0 width) (str_int n)
  | FInt n, _ => str_int n
  end.

(** One replacement field rendered; [auto] is the next automatic index.
    Returns the text and the automatic index to continue with. *)
Definition render_field (field : string) (auto : nat) (args : list format_arg)
  : string * nat :=
  let '(idx, spec) := split_field field in
  let '(i, auto') :=
    match idx with
    | EmptyString => (auto, S auto)
    | _ => (parse_nat 0 idx, auto)
    end in
  (from_option (apply_spec spec) EmptyString (args !! i), auto').

(** The scanner of [template.format( *args )]: [field] is [Some f] while
    inside braces, with [f] the field text read so far.  Doubled braces,
    which no template of the sources contains, are not treated. *)
Fixpoint format_scan (template : string) (field : option string) (auto : nat)
    (args : list format_arg) : string :=
  match template with
  | EmptyString => EmptyString
  | String c rest =>
      match field with
      | None =>
          if Ascii.eqb c "{"%char then format_scan rest (Some EmptyString) auto args
          else String c (format_scan rest None auto args)
      | Some f =>
          if Ascii.eqb c "}"%char then
            let '(text, auto') := render_field f auto args in
            text +:+ format_scan rest None auto' args
          else format_scan rest (Some (f +:+ String c EmptyString)) auto args
      end
  end.

Definition format (template : string) (args : list format_arg) : string :=
  format_scan template None 0 args.

(** [sep.join(parts)] *)
Definition join (sep : string) (parts : list string) : string :=
  String.concat sep parts.

End Py.

Import Py.

#[global] Instance result_ret : MRet result := λ A a, Ok a.
#[global] Instance result_bind : MBind result :=
  λ A B f m, match m with Ok a => f a | Raise e => Raise e end.

(** ** [class DataObject(list)] *)

(** One row of [pragma_table_info(table)]. *)
Module pragma_table_info.
Record row : Type := {
  cid : Z;
  name : string;
  type : string;
  notnull : Z;
  dflt_value : option string;
  pk : Z
}.
End pragma_table_info.

Module DataObject.

(** A column descriptor: the [DotDict] built by [__init__], which always
    holds exactly these five keys. *)
Record DotDict : Type := {
  name : string;
  datatype : string;
  nullable : bool;
  default : option string;
  primarykey : bool
}.

#[global] Instance DotDict_eq_dec : EqDecision DotDict.
Proof. solve_decision. Defined.

(** What a descriptor stores under its keys: strings, booleans and [None]. *)
Inductive attr : Type :=
  | AttrNone
  | AttrBool (b : bool)
  | AttrStr (s : string).

(** [dict.get(self, key)], default [None]. *)
Definition get (self : DotDict) (key : string) : attr :=
  if decide (key = "name") then AttrStr (name self)
  else if decide (key = "datatype") then AttrStr (datatype self)
  else if decide (key = "nullable") then AttrBool (nullable self)
  else if decide (key = "default") then
    match default self with Some s => AttrStr s | None => AttrNone end
  else if decide (key = "primarykey") then AttrBool (primarykey self)
  else AttrNone.

(** [__getattr__ = dict.get]: consulted when the normal attribute lookup
    finds nothing, which is the case for every name used below ([dict] has
    no attribute called name, datatype, primarykey or getattr). *)
Definition __getattr__ (self : DotDict) (attribute : string) : attr :=
  get self attribute.

Definition attr_type_name (a : attr) : string :=
  match a with
  | AttrNone => "NoneType"
  | AttrBool _ => "bool"
  | AttrStr _ => "str"
  end.

(** Calling a stored value: none of them is callable. *)
Definition call (callee : attr) (args : list string) : result string :=
  Raise (TypeError ("'" +:+ attr_type_name callee +:+ "' object is not callable")).

(** [DotDict.__str__]: [return self.getattr('name', '(null)')] *)
Definition DotDict__str__ (self : DotDict) : result string :=
  call (__getattr__ self "getattr") ["name"; "(null)"].

(** The descriptor [__init__] builds from one row:
    [DotDict(name = row[1], datatype = row[2],
             nullable = True if row[3] == 0 else False, default = row[4],
             primarykey = True if row[5] == 1 else False)] *)
Definition descriptor (row : pragma_table_info.row) : DotDict :=
  {| name := pragma_table_info.name row;
     datatype := pragma_table_info.type row;
     nullable := if decide (pragma_table_info.notnull row = 0%Z)
                 then true else false;
     default := pragma_table_info.dflt_value row;
     primarykey := if decide (pragma_table_info.pk row = 1%Z)
                   then true else false |}.

(** [DataObject.__init__(cursor, table, exclude)]: [cursor] stands for the
    rows the [pragma_table_info] query returns.  The [session_id] attribute
    set at the end is not part of the list and is left out. *)
Definition __init__ (cursor : list pragma_table_info.row)
    (exclude : list string) : list DotDict :=
  foldl
    (λ self row,
       if decide (pragma_table_info.name row ∉ exclude)
       then self ++ [descriptor row]
       else self)
    [] cursor.

(** [columns]: [[col.name for col in self]] *)
Definition columns (self : list DotDict) : list string :=
  name <$> self.

(** [primarykeys]: [[col.name for col in self if col.primarykey]] *)
Definition primarykeys (self : list DotDict) : list string :=
  name <$> filter (λ col, primarykey col) self.

(** [missing_columns] *)
Definition missing_columns (self : list DotDict) (columns_ : list string)
  : list string :=
  match columns_ with
  | [] => []
  | _ =>
      let existing := columns self in
      foldl
        (λ missing column,
           if decide (column ∉ existing) then missing ++ [column] else missing)
        [] columns_
  end.

Definition nonempty {A} (l : list A) : bool :=
  match l with [] => false | _ :: _ => true end.

(** [get_column_objects(include, exclude, include_primarykeys)] *)
Definition get_column_objects (self : list DotDict) (include exclude : list string)
    (include_primarykeys : bool) : list DotDict :=
  let exclude :=
    if nonempty exclude && include_primarykeys
    then filter (λ col, col ∉ primarykeys self) exclude
    else exclude in
  if negb (nonempty include) then
    filter (λ col, name col ∉ exclude) self
  else
    foldl
      (λ flist col,
         if primarykey col && include_primarykeys then flist ++ [col]
         else if bool_decide (name col ∈ include)
                 && bool_decide (name col ∉ exclude) then flist ++ [col]
         else flist)
      [] self.

(** [get_column_names] *)
Definition get_column_names (self : list DotDict) (include exclude : list string)
    (include_primarykeys : bool) : list string :=
  let lst := get_column_objects self include exclude include_primarykeys in
  name <$> lst.

(** [select_typecast(column)] *)
Definition select_typecast (self : list DotDict) (column : DotDict) : string :=
  if decide (datatype column = "TIMESTAMP") then
    format "CAST(strftime('%s', {0}) as integer) AS {0}" [FStr (name column)]
  else if decide (datatype column = "DATETIME") then
    format "datetime({0}) AS {0}" [FStr (name column)]
  else name column.

(** [select_columns(include, exclude, include_primarykeys)]: the source
    repeats the selection and the formatting inline. *)
Definition select_columns (self : list DotDict) (include exclude : list string)
    (include_primarykeys : bool) : string :=
  let exclude :=
    if nonempty exclude && include_primarykeys
    then filter (λ col, col ∉ primarykeys self) exclude
    else exclude in
  let flist :=
    if negb (nonempty include) then
      filter (λ col, name col ∉ exclude) self
    else
      foldl
        (λ flist col,
           if primarykey col && include_primarykeys then flist ++ [col]
           else if bool_decide (name col ∈ include)
                   && bool_decide (name col ∉ exclude) then flist ++ [col]
           else flist)
        [] self in
  let slist :=
    foldl
      (λ slist col,
         if decide (datatype col = "TIMESTAMP") then
           slist ++ [format "CAST(strftime('%s', {0}) as integer) AS {0}"
                            [FStr (name col)]]
         else if decide (datatype col = "DATETIME") then
           slist ++ [format "datetime({0}) AS {0}" [FStr (name col)]]
         else slist ++ [name col])
      [] flist in
  join ", " slist.

(** The search loop of [where_condition]:
    [for c in self: if c.name == column: col = c; break] *)
Fixpoint where_lookup (self : list DotDict) (column : string)
    (col : option DotDict) : option DotDict :=
  match self with
  | [] => col
  | c :: rest =>
      if decide (name c = column) then Some c
      else where_lookup rest column col
  end.

(** [where_condition(column)].  A descriptor is a dictionary of five keys,
    so [not col] holds only when the loop found nothing. *)
Definition where_condition (self : list DotDict) (column : string)
  : result string :=
  match where_lookup self column None with
  | None => Raise (ValueError "Non-existent column specified")
  | Some col =>
      if decide (datatype col = "TIMESTAMP") then
        Ok (format "CAST(strftime('%s', {}) as integer)" [FStr (name col)])
      else if decide (datatype col = "DATETIME") then
        Ok (format "datetime({})" [FStr (name col)])
      else Ok (format "{}" [FStr (name col)])
  end.

(** [DataObject.__str__]: the list comprehension calls [str(c)] on each
    descriptor in turn, then the pieces are joined with a newline. *)
Definition __str__ (self : list DotDict) : result string :=
  parts ← mapM DotDict__str__ self;
  mret (join "
" parts).

End DataObject.

(** ** Module-level functions of [api/__init__.py] *)

Module Api.

(** A [flask.Response] as far as this module touches it. *)
Record Response : Type := {
  data : string;
  status_code : Z;
  mimetype : option string;
  headers : gmap string string
}.

(** [app.response_class(response=..., status=..., mimetype=...)].
    [headers] holds the entries this module assigns; what Flask derives on
    its own ([Content-Length] and the like) is not part of it. *)
Definition response_class (response : string) (status : Z)
    (mimetype : option string) : Response :=
  {| data := response; status_code := status; mimetype := mimetype;
     headers := ∅ |}.

(** [response.headers[key] = text] *)
Definition set_header (key text : string) (r : Response) : Response :=
  {| data := data r; status_code := status_code r; mimetype := mimetype r;
     headers := <[key := text]> (headers r) |}.

(** What the module reads from outside itself during one call.  Reads that
    can fail are given as computations: [g.t_cpu_start] and
    [g.t_real_start] exist only once [before_request] has run,
    [request.url_rule.methods] only when a rule matched, and
    [json.dumps(payload, default=str)] rejects some payloads. *)
Record Runtime : Type := {
  apiversion : Z;
  g_t_cpu_start : result float;
  g_t_real_start : result float;
  process_time : float;
  perf_counter : float;
  json_dumps : value → result string;
  url_rule_methods : result (list string);
  format_exception : exception → list string
}.

(** The [api] element added to every JSON payload. *)
Definition api_element (version : Z) (t_cpu t_real : float) : value :=
  PyDict (<["version" := PyInt version]>
         (<["t_cpu" := PyFloat t_cpu]>
         (<["t_real" := PyFloat t_real]> ∅))).

(** The [try] block of [__make_response]. *)
Definition __make_response_try (rt : Runtime) (code : Z)
    (payload : gmap string value) : result Response :=
  t_cpu_start ← g_t_cpu_start rt;
  t_real_start ← g_t_real_start rt;
  let payload :=
    <["api" := api_element (apiversion rt)
                 (process_time rt - t_cpu_start)%float
                 (perf_counter rt - t_real_start)%float]> payload in
  payload ← json_dumps rt (PyDict payload);
  let response := response_class payload code (Some "application/json") in
  methods ← url_rule_methods rt;
  let allow := filter (λ method, method ∉ ["HEAD"; "OPTIONS"]) methods in
  let response := set_header "Allow" (join ", " allow) response in
  let response := set_header "Content-Type" "application/json" response in
  mret response.

(** [__make_response(code, payload)].  The two leading assertions hold by
    typing: [payload] is a dictionary and [code] an integer.  Logging has
    no effect on the result and is left out. *)
Definition __make_response (rt : Runtime) (code : Z)
    (payload : gmap string value) : result Response :=
  try_except
    (__make_response_try rt code payload)
    (λ e,
       mret (response_class
               (format "api.__make_response() Internal Error: {}"
                       [FStr (str_exception e)])
               500 None)).

(** [response(response_tuple)] *)
Definition response (rt : Runtime) (response_tuple : Z * gmap string value)
  : result Response :=
  __make_response rt response_tuple.1 response_tuple.2.

(** [self.code], set by the [__init__] of each subclass; [ApiException]
    itself sets none. *)
Definition code (cls : kind) : option Z :=
  match cls with
  | ApiException => None
  | NotFound => Some 404%Z
  | MethodNotAllowed => Some 405%Z
  | InvalidArgument => Some 406%Z
  | Conflict => Some 409%Z
  | Timeout => Some 500%Z
  | InternalError => Some 500%Z
  | NotImplemented => Some 501%Z
  end.

Definition class_name (cls : kind) : string :=
  match cls with
  | ApiException => "ApiException"
  | NotFound => "NotFound"
  | MethodNotAllowed => "MethodNotAllowed"
  | InvalidArgument => "InvalidArgument"
  | Conflict => "Conflict"
  | Timeout => "Timeout"
  | InternalError => "InternalError"
  | NotImplemented => "NotImplemented"
  end.

(** [ex.code] *)
Definition getattr_code (cls : kind) : result Z :=
  match code cls with
  | Some c => Ok c
  | None =>
      Raise (AttributeError
               ("'" +:+ class_name cls +:+ "' object has no attribute 'code'"))
  end.

(** [ApiException.to_dict]: [str(self)] is the message. *)
Definition to_dict (message : string) (details : value) : gmap string value :=
  let error_dict : gmap string value := {["message" := PyStr message]} in
  if truthy details then <["details" := details]> error_dict else error_dict.

(** What [exception_response] may be handed.  [Exc] is an instance of one
    of the exception classes above and [Val] a plain value; their classes
    leave truth testing alone.  [Instance] is an instance of any other
    class: the name of the class, the exception the instance is when the
    class derives from [Exception], and what its [__bool__] or [__len__]
    makes of truth testing, which may raise. *)
Inductive object : Type :=
  | Exc (e : exception)
  | Val (v : value)
  | Instance (cls : string) (exc : option exception) (truth : result bool).

(** Truth value testing of the argument, as [not ex] performs it: an
    exception is true unless its class says otherwise. *)
Definition object_truthy (ex : object) : result bool :=
  match ex with
  | Exc _ => Ok true
  | Val v => Ok (truthy v)
  | Instance _ _ truth => truth
  end.

(** [isinstance(ex, Exception)], with the exception at hand. *)
Definition as_exception (ex : object) : option exception :=
  match ex with
  | Exc e => Some e
  | Val _ => None
  | Instance _ exc _ => exc
  end.

(** [type(e).__name__] of an exception. *)
Definition exception_class (e : exception) : string :=
  match e with
  | Api cls _ _ => class_name cls
  | ValueError _ => "ValueError"
  | TypeError _ => "TypeError"
  | AttributeError _ => "AttributeError"
  | IndexError _ => "IndexError"
  | OtherError cls _ => cls
  end.

(** [type(ex)] *)
Definition type_of (ex : object) : value :=
  match ex with
  | Exc e => PyClass (exception_class e)
  | Val v => PyClass (type_name v)
  | Instance cls _ _ => PyClass cls
  end.

(** [e[-1]] *)
Definition last_item (e : list string) : result string :=
  match last e with
  | Some x => Ok x
  | None => Raise (IndexError "list index out of range")
  end.

(** [e[1:-1]] *)
Definition slice_1_m1 (e : list string) : list string :=
  take (length e - 2) (drop 1 e).

(** The [try] block of [exception_response]. *)
Definition exception_response_try (rt : Runtime) (ex : object)
  : result Response :=
  match as_exception ex with
  | Some (Api cls message details) =>
      response_code ← getattr_code cls;
      let response_payload := to_dict message details in
      __make_response rt response_code response_payload
  | Some ex =>
      let e := format_exception rt ex in
      error ← last_item e;
      let response_payload : gmap string value :=
        <["error" := PyStr error]>
        (<["trace" := PyStr (join EmptyString (slice_1_m1 e))]> ∅) in
      let response_code := 500%Z in
      __make_response rt response_code response_payload
  | None =>
      __make_response rt 500
        (<["error" := PyStr "Uknown"]>
        (<["details" :=
             PyStr "api.exception_response() received unsupported argument"]>
        (<["type" := type_of ex]> ∅)))
  end.

(** [exception_response(ex)]: the test [if not ex] comes before the [try]
    block, so an error raised by truth testing leaves the function. *)
Definition exception_response (rt : Runtime) (ex : object) : result Response :=
  truth ← object_truthy ex;
  if negb truth then
    __make_response rt 500
      (<["error" := PyStr "Unknown"]>
      (<["details" := PyStr "api.exception_response() received: None!"]> ∅))
  else
    try_except
      (exception_response_try rt ex)
      (λ e,
         __make_response rt 500
           (<["error" := PyStr "Internal Error"]>
           (<["details" :=
                PyStr "api.exception_response() internal failure!"]> ∅))).

(** The conditions under which the [try] block of [__make_response]
    completes for [payload]: both timers are on [g], [json.dumps] turns the
    payload with its [api] element into [text], and a rule with [methods]
    matched the request. *)
Definition envelope_builds (rt : Runtime) (payload : gmap string value)
    (text : string) (methods : list string) : Prop :=
  ∃ t_cpu_start t_real_start,
    g_t_cpu_start rt = Ok t_cpu_start
    ∧ g_t_real_start rt = Ok t_real_start
    ∧ json_dumps rt
        (PyDict (<["api" := api_element (apiversion rt)
                              (process_time rt - t_cpu_start)%float
                              (perf_counter rt - t_real_start)%float]> payload))
      = Ok text
    ∧ url_rule_methods rt = Ok methods.

(** *** CSV streaming *)

(** An [io.StringIO]: its content and the stream position. *)
Record StringIO : Type := {
  getvalue : string;
  tell : nat
}.

Definition StringIO_new : StringIO :=
  {| getvalue := EmptyString; tell := 0 |}.

Fixpoint nul_padding (n : nat) : string :=
  match n with
  | O => EmptyString
  | S n' => String (ascii_of_nat 0) (nul_padding n')
  end.

(** [data.write(s)]: the text goes in at the position, over what is there,
    after padding a position that lies beyond the end. *)
Definition write (s : string) (data : StringIO) : StringIO :=
  let old := getvalue data in
  let pos := tell data in
  let stop := pos + String.length s in
  {| getvalue :=
       String.substring 0 pos old +:+ nul_padding (pos - String.length old) +:+ s
       +:+ String.substring stop (String.length old - stop) old;
     tell := stop |}.

(** [data.seek(pos)] *)
Definition seek (pos : nat) (data : StringIO) : StringIO :=
  {| getvalue := getvalue data; tell := pos |}.

(** [data.truncate(size)]: cuts the content, leaves the position. *)
Definition truncate (size : nat) (data : StringIO) : StringIO :=
  {| getvalue := String.substring 0 size (getvalue data); tell := tell data |}.

(** [csv.writer(data).writerow(row)]: [csv_line] is the text the dialect
    produces for one row, line terminator included. *)
Definition writerow (csv_line : list value → string) (row : list value)
    (data : StringIO) : StringIO :=
  write (csv_line row) data.

(** The loop [for row in cursor] of [generate], one chunk per [yield]. *)
Fixpoint generate_rows (csv_line : list value → string) (data : StringIO)
    (cursor : list (list value)) : list string :=
  match cursor with
  | [] => []
  | row :: rest =>
      let data := writerow csv_line row data in
      let chunk := getvalue data in
      let data := seek 0 data in
      let data := truncate 0 data in
      chunk :: generate_rows csv_line data rest
  end.

(** [generate(cursor)], as the sequence of what it yields.  A cursor is its
    [description] (one tuple per column, the name first) and its rows. *)
Definition generate (csv_line : list value → string)
    (description : list (string * list value))
    (cursor : list (list value)) : list string :=
  let data := StringIO_new in
  let data := writerow csv_line ((λ key, PyStr key.1) <$> description) data in
  let chunk := getvalue data in
  let data := seek 0 data in
  let data := truncate 0 data in
  chunk :: generate_rows csv_line data cursor.

End Api.

(** ** [util/create_database.py]: the generated [hitcount] table *)

Module CreateDatabase.

(** [range(start, stop)] *)
Definition range (start stop : nat) : list Z :=
  Z.of_nat <$> seq start (stop - start).

Definition hitcount_head : string :=
"
    CREATE TABLE hitcount
    (
        timestamp       INTEGER NOT NULL DEFAULT CURRENT_TIME PRIMARY KEY,
        session_id      INTEGER NOT NULL,
    ".

(** The list [cols] once both enumeration loops have run. *)
Definition hitcount_cols : list string :=
  let cols : list string := [] in
  let cols :=
    foldl
      (λ cols sector,
         let cols :=
           foldl
             (λ cols proton,
                cols ++ [format "s{:02}p{:02} INTEGER NOT NULL, "
                                [FInt sector; FInt proton]])
             cols (range 1 13) in
         foldl
           (λ cols electron,
              cols ++ [format "s{:02}e{:02} INTEGER NOT NULL, "
                              [FInt sector; FInt electron]])
           cols (range 1 9))
      cols (range 0 37) in
  foldl
    (λ cols telescope,
       let cols :=
         foldl
           (λ cols ac,
              cols ++ [format "{}ac{} INTEGER NOT NULL, "
                              [FStr telescope; FInt ac]])
           cols (range 1 3) in
       let cols :=
         foldl
           (λ cols d1,
              cols ++ [format "{}d1p{:01} INTEGER NOT NULL, "
                              [FStr telescope; FInt d1]])
           cols (range 1 5) in
       let cols :=
         cols ++ [format "{}d2p1 INTEGER NOT NULL, " [FStr telescope]] in
       foldl
         (λ cols trash,
            cols ++ [format "{}trash{:01} INTEGER NOT NULL, "
                            [FStr telescope; FInt trash]])
         cols (range 1 3))
    cols ["st"; "rt"].

(** The statement handed to [cursor.execute] for [hitcount]. *)
Definition hitcount_sql : string :=
  let sql := hitcount_head in
  let sql := sql +:+ join EmptyString hitcount_cols in
  sql +:+ " FOREIGN KEY (session_id) REFERENCES testing_session (id) )".

(** *** Reading the columns back from a [CREATE TABLE] statement *)

Definition is_space (c : ascii) : bool :=
  Ascii.eqb c " "%char || Ascii.eqb c (ascii_of_nat 10).

(** The text after the first opening parenthesis. *)
Fixpoint after_paren (s : string) : string :=
  match s with
  | EmptyString => EmptyString
  | String c rest => if Ascii.eqb c "("%char then rest else after_paren rest
  end.

(** The pieces between commas; [piece] is the one being read. *)
Fixpoint split_commas (s : string) (piece : string) : list string :=
  match s with
  | EmptyString => [piece]
  | String c rest =>
      if Ascii.eqb c ","%char then piece :: split_commas rest EmptyString
      else split_commas rest (piece +:+ String c EmptyString)
  end.

Fixpoint trim_left (s : string) : string :=
  match s with
  | String c rest => if is_space c then trim_left rest else s
  | EmptyString => EmptyString
  end.

Fixpoint first_word (s : string) : string :=
  match s with
  | String c rest => if is_space c then EmptyString else String c (first_word rest)
  | EmptyString => EmptyString
  end.

(** The name a column definition declares: its first word. *)
Definition column_name (definition : string) : string :=
  first_word (trim_left definition).

(** The column names of a [CREATE TABLE name ( ... )] statement whose
    definitions hold no comma of their own: the first word of each piece,
    table constraints ([FOREIGN KEY ...]) left aside. *)
Definition ddl_columns (sql : string) : list string :=
  filter (λ word, word ≠ "FOREIGN")
         (column_name <$> split_commas (after_paren sql) EmptyString).

(** *** The naming scheme, spelled out *)

Definition two_digits (n : nat) : string :=
  zero_pad 2 (str_int (Z.of_nat n)).

(** 37 sectors, each with 12 proton and 8 electron counters. *)
Definition sector_counters : list string :=
  sector ← seq 0 37;
  ((λ p, "s" +:+ two_digits sector +:+ "p" +:+ two_digits p) <$> seq 1 12)
  ++ ((λ e, "s" +:+ two_digits sector +:+ "e" +:+ two_digits e) <$> seq 1 8).

(** 2 telescopes, each with 2 ac, 4 d1, 1 d2 and 2 trash counters. *)
Definition telescope_counters : list string :=
  telescope ← ["st"; "rt"];
  ((λ suffix, telescope +:+ suffix) <$>
     ["ac1"; "ac2"; "d1p1"; "d1p2"; "d1p3"; "d1p4"; "d2p1"; "trash1"; "trash2"]).

End CreateDatabase.

(** ** Tables of the schema, as [pragma_table_info] reports them *)

Module Example.

Definition info (cid : Z) (name type : string) (notnull : Z)
    (dflt_value : option string) (pk : Z) : pragma_table_info.row :=
  {| pragma_table_info.cid := cid; pragma_table_info.name := name;
     pragma_table_info.type := type; pragma_table_info.notnull := notnull;
     pragma_table_info.dflt_value := dflt_value; pragma_table_info.pk := pk |}.

(** Table [command] of [create_database.py]. *)
Definition command_info : list pragma_table_info.row :=
  [ info 0 "id" "INTEGER" 1 None 1;
    info 1 "session_id" "INTEGER" 1 None 0;
    info 2 "interface" "TEXT" 1 None 0;
    info 3 "command" "TEXT" 1 None 0;
    info 4 "value" "TEXT" 1 None 0;
    info 5 "created" "TIMESTAMP" 1 (Some "CURRENT_TIMESTAMP") 0;
    info 6 "handled" "DATETIME" 0 None 0;
    info 7 "result" "TEXT" 0 None 0 ].

(** Table [pate]. *)
Definition pate_info : list pragma_table_info.row :=
  [ info 0 "id" "INTEGER" 1 None 1;
    info 1 "id_min" "INTEGER" 1 None 0;
    info 2 "id_max" "INTEGER" 1 None 0;
    info 3 "label" "TEXT" 1 None 0 ].

(** [DataObject(cursor, 'command')] *)
Definition command : list DataObject.DotDict :=
  DataObject.__init__ command_info [].

Definition command_id : DataObject.DotDict :=
  {| DataObject.name := "id"; DataObject.datatype := "INTEGER";
     DataObject.nullable := false; DataObject.default := None;
     DataObject.primarykey := true |}.

Definition command_created : DataObject.DotDict :=
  {| DataObject.name := "created"; DataObject.datatype := "TIMESTAMP";
     DataObject.nullable := false; DataObject.default := Some "CURRENT_TIMESTAMP";
     DataObject.primarykey := false |}.

Definition command_handled : DataObject.DotDict :=
  {| DataObject.name := "handled"; DataObject.datatype := "DATETIME";
     DataObject.nullable := true; DataObject.default := None;
     DataObject.primarykey := false |}.

Definition command_value : DataObject.DotDict :=
  {| DataObject.name := "value"; DataObject.datatype := "TEXT";
     DataObject.nullable := false; DataObject.default := None;
     DataObject.primarykey := false |}.

(** A request in progress: timers set by [before_request], a matched rule,
    and an encoder that lists the keys of the dictionary it is given. *)
Definition runtime : Api.Runtime :=
  {| Api.apiversion := 1;
     Api.g_t_cpu_start := Ok 0.25%float;
     Api.g_t_real_start := Ok 10%float;
     Api.process_time := 0.75%float;
     Api.perf_counter := 12.5%float;
     Api.json_dumps := λ v,
       match v with
       | PyDict d => Ok (join "," (map_to_list d).*1)
       | _ => Ok "null"
       end;
     Api.url_rule_methods := Ok ["GET"; "HEAD"; "OPTIONS"; "POST"];
     Api.format_exception := λ e,
       ["Traceback (most recent call last):"; "  File routes.py, line 1";
        str_exception e] |}.

(** The same request with an encoder that rejects every payload. *)
Definition failing_runtime : Api.Runtime :=
  {| Api.apiversion := 1;
     Api.g_t_cpu_start := Ok 0.25%float;
     Api.g_t_real_start := Ok 10%float;
     Api.process_time := 0.75%float;
     Api.perf_counter := 12.5%float;
     Api.json_dumps := λ v, Raise (TypeError "keys must be str");
     Api.url_rule_methods := Ok ["GET"];
     Api.format_exception := λ e, [str_exception e] |}.

End Example.

(** ** Constructors of the API exception classes *)

Module Exceptions.

(** The default of the [message] parameter of each class. *)
Definition default_message (cls : kind) : string :=
  match cls with
  | ApiException => "Unspecified API Error"
  | NotFound => "Entity not found!"
  | MethodNotAllowed => "Requested method is not supported!"
  | InvalidArgument => "Provided argument(s) are invalid!"
  | Conflict =>
      "Unique, primary key, foreign key or other constraint violation!"
  | Timeout => "Processing/polling exceeded allowed timeout!"
  | InternalError => "Unspecified internal processing error!"
  | NotImplemented => "Requested functionality is not yet implemented."
  end.

(** [cls(message, details)], each argument given or left to its default
    ([details = None]). *)
Definition new (cls : kind) (message : option string) (details : option value)
  : exception :=
  Api cls (default (default_message cls) message) (default PyNone details).

End Exceptions.

(** ** [application.py] *)

Module Application.

(** Text is a sequence of characters with code points below 256.
    [str.isspace] on that range: tab to carriage return, the four
    separators 28 to 31, the space, NEXT LINE (U+0085) and the no-break
    space (U+00A0).  [str.strip()] and [str.split()] use the same notion
    of whitespace. *)
Definition isspace (c : ascii) : bool :=
  let n := nat_of_ascii c in
  (9 <=? n) && (n <=? 13) || (28 <=? n) && (n <=? 32)
  || (n =? 133) || (n =? 160).

(** A text file opened for reading, as a [for] loop over it sees it: the
    lines it yields and, if reading fails after them (bytes that do not
    decode, an I/O error), the error raised in place of the next line. *)
Record TextFile : Type := {
  lines : list string;
  failure : option exception
}.

Fixpoint lstrip (s : string) : string :=
  match s with
  | EmptyString => EmptyString
  | String c rest => if isspace c then lstrip rest else s
  end.

Fixpoint rstrip (s : string) : string :=
  match s with
  | EmptyString => EmptyString
  | String c rest =>
      match rstrip rest with
      | EmptyString => if isspace c then EmptyString else String c EmptyString
      | kept => String c kept
      end
  end.

(** [s.strip()] *)
Definition strip (s : string) : string := lstrip (rstrip s).

(** [s.split()]: [word] is the word being read. *)
Fixpoint split_go (s : string) (word : string) : list string :=
  match s with
  | EmptyString =>
      match word with EmptyString => [] | _ => [word] end
  | String c rest =>
      if isspace c then
        match word with
        | EmptyString => split_go rest EmptyString
        | _ => word :: split_go rest EmptyString
        end
      else split_go rest (word +:+ String c EmptyString)
  end.

Definition split (s : string) : list string := split_go s EmptyString.

(** The loop over the lines of [APIVERSION]: [None] while [apiversion] is
    still unbound.  [int_of_str] is the built-in [int]. *)
Fixpoint apiversion_loop (int_of_str : string → result Z)
    (version_file : list string) : option Z :=
  match version_file with
  | [] => None
  | line :: rest =>
      match int_of_str (strip line) with
      | Ok apiversion => Some apiversion
      | Raise _ => apiversion_loop int_of_str rest
      end
  end.

Definition NameError (name : string) : exception :=
  OtherError "NameError" ("name '" +:+ name +:+ "' is not defined").

(** The value handed to [setattr(app, 'apiversion', ...)].  [version_file]
    is [None] when [open('APIVERSION')] fails.  The outer bare [except]
    encloses the loop: an error raised while the file is read, before the
    [break], gives -1 as well.  A file read to its end without a [break]
    leaves [apiversion] unbound, and the [finally] clause raises. *)
Definition load_apiversion (int_of_str : string → result Z)
    (version_file : option TextFile) : result Z :=
  match version_file with
  | None => Ok (-1)%Z
  | Some version_file =>
      match apiversion_loop int_of_str (lines version_file) with
      | Some apiversion => Ok apiversion
      | None =>
          match failure version_file with
          | Some _ => Ok (-1)%Z
          | None => Raise (NameError "apiversion")
          end
      end
  end.

(** The loop over the lines of [APPVERSION]; [appversion] is [None] while
    the variable is unbound.  The loop ends early at the [break]; when the
    lines run out, reading raises [failure] if there is one. *)
Fixpoint appversion_loop (vfile : list string) (failure : option exception)
    (appversion : option string) : result (option string) :=
  match vfile with
  | [] =>
      match failure with
      | Some e => Raise e
      | None => Ok appversion
      end
  | line :: rest =>
      let appversion := strip line in
      if negb (0 <? String.length appversion) then
        appversion_loop rest failure (Some appversion)
      else if String.eqb (String.substring 0 1 appversion) "#" then
        appversion_loop rest failure (Some appversion)
      else
        match split appversion with
        | token :: _ => Ok (Some token)
        | [] => Raise (IndexError "list index out of range")
        end
  end.

(** The value handed to [setattr(app, 'appversion', ...)]; the bare
    [except] turns any error of the [try] block into ["0.0.0"]. *)
Definition load_appversion (vfile : option TextFile) : result string :=
  match vfile with
  | None => Ok "0.0.0"
  | Some vfile =>
      match appversion_loop (lines vfile) (failure vfile) None with
      | Raise _ => Ok "0.0.0"
      | Ok (Some appversion) => Ok appversion
      | Ok None => Raise (NameError "appversion")
      end
  end.

(** [app.config.get(key, None)] *)
Definition config_get (config : gmap string value) (key : string) : value :=
  default PyNone (config !! key).

(** The check of [COMMAND_TIMEOUT] and [COMMAND_POLL_INTERVAL]; the value
    set for the latter is 1.0, whatever the warning logged beside it says. *)
Definition check_command_config (config : gmap string value)
  : gmap string value :=
  let config :=
    if negb (truthy (config_get config "COMMAND_TIMEOUT"))
    then <["COMMAND_TIMEOUT" := PyFloat 1%float]> config
    else config in
  if negb (truthy (config_get config "COMMAND_POLL_INTERVAL"))
  then <["COMMAND_POLL_INTERVAL" := PyFloat 1%float]> config
  else config.

(** A [sqlite3] connection: the file it was opened on and what was done to
    it since. *)
Record Connection : Type := {
  database : value;
  statements : list string;
  closed : bool
}.

(** [conn.close()] *)
Definition close (conn : Connection) : Connection :=
  {| database := database conn; statements := statements conn;
     closed := true |}.

(** The attributes this module keeps on [flask.g]; [None] is an attribute
    not set. *)
Record G : Type := {
  t_real_start : option float;
  t_cpu_start : option float;
  db : option Connection
}.

(** [before_request()]: the state of [g] afterwards and how the call
    ended.  [connect] is [sqlite3.connect] and [execute] runs a statement
    on a connection's cursor. *)
Definition before_request (perf_counter process_time : float)
    (config : gmap string value)
    (connect : value → result Connection)
    (execute : string → Connection → result Connection)
    (g : G) : G * result unit :=
  let g := {| t_real_start := Some perf_counter;
              t_cpu_start := Some process_time; db := db g |} in
  match db g with
  | Some _ => (g, Ok ())
  | None =>
      match connect (default (PyStr "pmapi.sqlite3")
                             (config !! "SQLITE3_DATABASE_FILE")) with
      | Raise e => (g, Raise e)
      | Ok conn =>
          let g := {| t_real_start := t_real_start g;
                      t_cpu_start := t_cpu_start g; db := Some conn |} in
          match execute "PRAGMA foreign_keys = 1" conn with
          | Raise e => (g, Raise e)
          | Ok conn =>
              ({| t_real_start := t_real_start g;
                  t_cpu_start := t_cpu_start g; db := Some conn |}, Ok ())
          end
      end
  end.

(** [teardown_request(error)]: the log line reads [g.t_real_start] before
    the connection is looked at. *)
Definition teardown_request (g : G) : G * result unit :=
  match t_real_start g with
  | None => (g, Raise (AttributeError "t_real_start"))
  | Some _ =>
      match db g with
      | Some conn =>
          ({| t_real_start := t_real_start g; t_cpu_start := t_cpu_start g;
              db := Some (close conn) |}, Ok ())
      | None => (g, Ok ())
      end
  end.

(** The [Runtime] of a call made while [g] is the request's state: the
    timers are the attributes of [g], the rest is [rt]'s. *)
Definition request_runtime (g : G) (rt : Api.Runtime) : Api.Runtime :=
  {| Api.apiversion := Api.apiversion rt;
     Api.g_t_cpu_start :=
       match t_cpu_start g with
       | Some t => Ok t
       | None => Raise (AttributeError "t_cpu_start")
       end;
     Api.g_t_real_start :=
       match t_real_start g with
       | Some t => Ok t
       | None => Raise (AttributeError "t_real_start")
       end;
     Api.process_time := Api.process_time rt;
     Api.perf_counter := Api.perf_counter rt;
     Api.json_dumps := Api.json_dumps rt;
     Api.url_rule_methods := Api.url_rule_methods rt;
     Api.format_exception := Api.format_exception rt |}.

End Application.

(** ** [util/create_database.py]: the run of the script *)

Module CreateDatabaseRun.

Import CreateDatabase.

(** The list [tables], in dropping order. *)
Definition tables : list string :=
  [ "note"; "command"; "register"; "pulseheight"; "hitcount"; "housekeeping";
    "testing_session"; "pate"; "psu" ].

Definition pate_sql : string :=
"
    CREATE TABLE pate
    (
        id          INTEGER NOT NULL PRIMARY KEY AUTOINCREMENT,
        id_min      INTEGER NOT NULL,
        id_max      INTEGER NOT NULL,
        label       TEXT NOT NULL
    )
    ".

Definition testing_session_sql : string :=
"
    CREATE TABLE testing_session
    (
        id              INTEGER NOT NULL PRIMARY KEY AUTOINCREMENT,
        started         DATETIME,
        pate_id         INTEGER NOT NULL,
        pate_firmware   TEXT NOT NULL,
        FOREIGN KEY (pate_id) REFERENCES pate (id)
    )
    ".

Definition pulseheight_sql : string :=
"
    CREATE TABLE pulseheight
    (
        timestamp       INTEGER NOT NULL DEFAULT CURRENT_TIME PRIMARY KEY,
        session_id      INTEGER NOT NULL,
        ac1             INTEGER NOT NULL,
        d1a             INTEGER NOT NULL,
        d1b             INTEGER NOT NULL,
        d1c             INTEGER NOT NULL,
        d2a             INTEGER NOT NULL,
        d2b             INTEGER NOT NULL,
        d3              INTEGER NOT NULL,
        ac2             INTEGER NOT NULL,
        FOREIGN KEY (session_id) REFERENCES testing_session (id)
    )
    ".

Definition register_sql : string :=
"
    CREATE TABLE register
    (
        pate_id         INTEGER NOT NULL,
        retrieved       DATETIME NOT NULL,
        reg01           INTEGER NOT NULL,
        reg02           INTEGER NOT NULL,
        FOREIGN KEY (pate_id) REFERENCES pate (id)
    )
    ".

Definition note_sql : string :=
"
    CREATE TABLE note
    (
        id              INTEGER     NOT NULL PRIMARY KEY AUTOINCREMENT,
        session_id      INTEGER     NOT NULL,
        text            TEXT            NULL,
        created         INTEGER     NOT NULL DEFAULT (strftime('%s', 'now')),
        FOREIGN KEY (session_id) REFERENCES testing_session (id)
    )
    ".

Definition command_sql : string :=
"
    CREATE TABLE command
    (
        id              INTEGER         NOT NULL PRIMARY KEY AUTOINCREMENT,
        session_id      INTEGER         NOT NULL,
        interface       TEXT            NOT NULL,
        command         TEXT            NOT NULL,
        value           TEXT            NOT NULL,
        created         TIMESTAMP       NOT NULL DEFAULT CURRENT_TIMESTAMP,
        handled         DATETIME            NULL,
        result          TEXT                NULL,
        FOREIGN KEY (session_id) REFERENCES testing_session (id)
    )
    ".

Definition psu_sql : string :=
"
    CREATE TABLE psu
    (
        id                  INTEGER         NOT NULL DEFAULT 0 PRIMARY KEY,
        power               TEXT            NOT NULL,
        voltage_setting     REAL            NOT NULL,
        current_limit       REAL            NOT NULL,
        measured_current    REAL            NOT NULL,
        measured_voltage    REAL            NOT NULL,
        state               TEXT            NOT NULL,
        modified            INTEGER         NOT NULL DEFAULT CURRENT_TIMESTAMP,
        CONSTRAINT          single_row_chk  CHECK (id = 0),
        CONSTRAINT          power_chk       CHECK (power IN ('ON', 'OFF')),
        CONSTRAINT          state_chk       CHECK (state IN ('OK', 'OVER CURRENT'))
    )
    ".

Definition psu_ari_trg : string :=
"
    CREATE TRIGGER psu_ari
    AFTER UPDATE ON psu
    FOR EACH ROW
    BEGIN
        UPDATE psu
        SET    modified = CURRENT_TIMESTAMP
        WHERE  id = old.id;
    END;
    ".

Definition housekeeping_head : string :=
"
    CREATE TABLE housekeeping
    (
        timestamp       DATETIME NOT NULL PRIMARY KEY,
        session_id      INTEGER NOT NULL,
    ".

(** The list [cols] of the [housekeeping] table after its loop. *)
Definition housekeeping_cols : list string :=
  foldl
    (λ cols c,
       let cols := cols ++ [format "s_c{:02} INTEGER NOT NULL, " [FInt c]] in
       cols ++ [format "r_c{:02} INTEGER NOT NULL, " [FInt c]])
    [] (range 0 37).

Definition housekeeping_sql : string :=
  let sql := housekeeping_head in
  let sql := sql +:+ join EmptyString housekeeping_cols in
  sql +:+ " FOREIGN KEY (session_id) REFERENCES testing_session (id) )".

(** The statements of the creation block, in the order they are executed. *)
Definition create_statements : list string :=
  [ pate_sql; testing_session_sql; hitcount_sql; pulseheight_sql;
    register_sql; note_sql; command_sql; psu_sql; psu_ari_trg;
    housekeeping_sql ].

(** How a run ends: [os._exit(status)], an exception that is not caught,
    or the end of the script. *)
Inductive outcome : Type :=
  | Exited (status : Z)
  | Raised (e : exception)
  | Completed.

(** What a run did: the statements handed to [cursor.execute], in order,
    whether [conn.close()] was called, and how it ended. *)
Record Run : Type := {
  executed : list string;
  conn_closed : bool;
  ended : outcome
}.

Section script.
Context {DB : Type}.
(** [cursor.execute(sql)] on a database in state [DB]. *)
Context (execute : string → DB → DB * result unit).

(** One [cursor.execute], recorded. *)
Definition run_execute (sql : string) (st : DB * list string)
  : (DB * list string) * result unit :=
  let '(db', r) := execute sql st.1 in
  ((db', st.2 ++ [sql]), r).

(** [str(e)[:7] == "no such"] *)
Definition no_such (e : exception) : bool :=
  String.eqb (String.substring 0 7 (str_exception e)) "no such".

(** The loop [for table in tables], with the flag [ok]. *)
Definition drop_tables (st : DB * list string) : (DB * list string) * bool :=
  foldl
    (λ '(st, ok) table,
       let '(st, r) := run_execute (format "DROP TABLE {}" [FStr table]) st in
       match r with
       | Ok _ => (st, ok)
       | Raise e => if no_such e then (st, ok) else (st, false)
       end)
    (st, true) tables.

(** Statements executed one after the other, up to the first that raises. *)
Fixpoint execute_all (statements : list string) (st : DB * list string)
  : (DB * list string) * result unit :=
  match statements with
  | [] => (st, Ok ())
  | sql :: rest =>
      let '(st, r) := run_execute sql st in
      match r with
      | Ok _ => execute_all rest st
      | Raise e => (st, Raise e)
      end
  end.

(** The script.  [is_file] is [dbfile.is_file()] and [connect] what
    [sqlite3.connect(filename)] gives. *)
Definition main (is_file : bool) (connect : result DB) : Run :=
  if negb is_file then
    {| executed := []; conn_closed := false; ended := Exited (-1) |}
  else
    match connect with
    | Raise e => {| executed := []; conn_closed := false; ended := Raised e |}
    | Ok db =>
        let '(st, r) := run_execute "PRAGMA foreign_keys = 1" (db, []) in
        match r with
        | Raise e =>
            {| executed := st.2; conn_closed := false; ended := Raised e |}
        | Ok _ =>
            let '(st, ok) := drop_tables st in
            if negb ok then
              {| executed := st.2; conn_closed := false;
                 ended := Exited (-1) |}
            else
              let '(st, r) := run_execute "vacuum" st in
              match r with
              | Raise e =>
                  {| executed := st.2; conn_closed := false;
                     ended := Raised e |}
              | Ok _ =>
                  let '(st, r) := execute_all create_statements st in
                  {| executed := st.2; conn_closed := true;
                     ended := match r with
                              | Ok _ => Completed
                              | Raise e => Raised e
                              end |}
              end
        end
    end.

(** The outcomes of the [DROP] statements, in order, on a database that
    starts in state [db]. *)
Fixpoint drop_results (names : list string) (db : DB) : list (result unit) :=
  match names with
  | [] => []
  | table :: rest =>
      let '(db', r) := execute (format "DROP TABLE {}" [FStr table]) db in
      r :: drop_results rest db'
  end.

End script.

(** A [DROP] outcome the script tolerates: success, or an error whose
    text starts with "no such". *)
Definition tolerated (r : result unit) : bool :=
  match r with
  | Ok _ => true
  | Raise e => no_such e
  end.

(** Every statement of a complete run, in order. *)
Definition all_statements : list string :=
  "PRAGMA foreign_keys = 1"
  :: ((λ table, "DROP TABLE " +:+ table) <$> tables)
  ++ ["vacuum"] ++ create_statements.

End CreateDatabaseRun.

(** ** Scenarios *)

Module Scenario.

(** A stand-in for [int]: decimal digits only. *)
Definition decimal (s : string) : result Z :=
  match s with
  | EmptyString =>
      Raise (ValueError "invalid literal for int() with base 10: ''")
  | _ =>
      if forallb (λ c, (48 <=? nat_of_ascii c) && (nat_of_ascii c <=? 57))
                 (String.list_ascii_of_string s)
      then Ok (Z.of_nat (parse_nat 0 s))
      else Raise (ValueError "invalid literal for int() with base 10")
  end.

(** A database holding a set of tables: [DROP TABLE t] fails with
    "no such table" when [t] is absent, everything else succeeds. *)
Definition drop_only (sql : string) (db : list string)
  : list string * result unit :=
  if String.prefix "DROP TABLE " sql then
    let table := String.substring 11 (String.length sql - 11) sql in
    if bool_decide (table ∈ db)
    then (filter (λ t, t ≠ table) db, Ok ())
    else (db, Raise (OtherError "OperationalError"
                       ("no such table: " +:+ table)))
  else (db, Ok ()).

(** A database on which [DROP TABLE pate] fails for another reason. *)
Definition locked (sql : string) (db : unit) : unit * result unit :=
  if String.eqb sql "DROP TABLE pate"
  then (db, Raise (OtherError "OperationalError" "database is locked"))
  else (db, Ok ()).

(** [sqlite3.connect] and [cursor.execute] that always succeed. *)
Definition connect (database : value) : result Application.Connection :=
  Ok {| Application.database := database; Application.statements := [];
        Application.closed := false |}.

Definition execute (sql : string) (conn : Application.Connection)
  : result Application.Connection :=
  Ok {| Application.database := Application.database conn;
        Application.statements := Application.statements conn ++ [sql];
        Application.closed := Application.closed conn |}.




Definition fresh_g : Application.G :=
  {| Application.t_real_start := None; Application.t_cpu_start := None;
     Application.db := None |}.

End Scenario.

(** * Properties *)

Import DataObject.

(** ** Loops that append *)

Section append_loops.
Context {A B : Type}.

(** A loop that appends the elements passing a test keeps exactly those, in
    order. *)
Lemma foldl_append_if (p : A → bool) (step : list A → A → list A) :
  (∀ acc x, step acc x = if p x then acc ++ [x] else acc) →
  ∀ l acc, foldl step acc l = acc ++ filter (λ x, p x) l.
Proof.
  intros Hstep l. induction l as [|x l IH]; intros acc; simpl.
  - by rewrite app_nil_r.
  - rewrite IH, Hstep, filter_cons. destruct (p x) eqn:Hp.
    + rewrite decide_True by done. by rewrite <- app_assoc.
    + rewrite decide_False; [done|]. by intros [].
Qed.

(** A loop that appends one image per element is a map. *)
Lemma foldl_append_map (f : A → B) (step : list B → A → list B) :
  (∀ acc x, step acc x = acc ++ [f x]) →
  ∀ l acc, foldl step acc l = acc ++ (f <$> l).
Proof.
  intros Hstep l. induction l as [|x l IH]; intros acc; simpl.
  - by rewrite app_nil_r.
  - rewrite IH, Hstep. by rewrite <- app_assoc.
Qed.

End append_loops.

Lemma string_app_empty_r (s : string) : s +:+ EmptyString = s.
Proof.
  induction s as [|c s IH]; [done|].
  change (String c (s +:+ EmptyString) = String c s). by rewrite IH.
Qed.

Lemma nonempty_true {A} (l : list A) : nonempty l = true ↔ l ≠ [].
Proof. destruct l; simpl; split; congruence. Qed.

(** ** Column selection *)

Section column_selection.
Context (self : list DotDict).

(** Membership in the selection, as one condition on the descriptor. *)
Lemma get_column_objects_elem (include exclude : list string)
    (include_primarykeys : bool) (col : DotDict) :
  col ∈ get_column_objects self include exclude include_primarykeys ↔
  col ∈ self ∧
  let purged :=
    if nonempty exclude && include_primarykeys
    then filter (λ c, c ∉ primarykeys self) exclude else exclude in
  if nonempty include
  then primarykey col && include_primarykeys = true
       ∨ (name col ∈ include ∧ name col ∉ purged)
  else name col ∉ purged.
Proof.
  unfold get_column_objects. cbv zeta.
  set (purged := if nonempty exclude && include_primarykeys then _ else _).
  destruct (nonempty include); simpl.
  - rewrite (foldl_append_if
      (λ c, primarykey c && include_primarykeys
            || bool_decide (name c ∈ include) && bool_decide (name c ∉ purged))).
    + simpl. rewrite list_elem_of_filter.
      rewrite orb_True, (andb_True (bool_decide _)), !bool_decide_spec.
      rewrite Is_true_true. tauto.
    + intros acc x. by destruct (primarykey x && include_primarykeys).
  - rewrite list_elem_of_filter. tauto.
Qed.

Lemma primarykeys_elem (col : DotDict) :
  col ∈ self → primarykey col = true → name col ∈ primarykeys self.
Proof.
  intros Hin Hpk. unfold primarykeys. apply list_elem_of_fmap.
  exists col. split; [done|]. apply list_elem_of_filter. by rewrite Hpk.
Qed.

Lemma primary_key_forced (include exclude : list string) (col : DotDict) :
  col ∈ self → primarykey col = true →
  col ∈ get_column_objects self include exclude true.
Proof.
  intros Hin Hpk. apply get_column_objects_elem. split; [done|]. cbv zeta.
  rewrite Hpk. destruct (nonempty include); [by left|].
  destruct exclude as [|x rest]; simpl; [apply not_elem_of_nil|].
  rewrite list_elem_of_filter. intros [Hno _].
  by apply Hno, primarykeys_elem.
Qed.

End column_selection.

(** C1.  A primary-key descriptor of the schema is always selected when
    [include_primarykeys] is true, whatever [include] and [exclude] hold,
    and so is its name in [get_column_names]; it is missing from the
    selection exactly when [include_primarykeys] is false and its name is
    in [exclude] or left out of a non-empty [include]. *)
Theorem primary_keys_selected (self : list DotDict) (include exclude : list string)
    (include_primarykeys : bool) (col : DotDict) :
  col ∈ self → primarykey col = true →
  (include_primarykeys = true →
     col ∈ get_column_objects self include exclude include_primarykeys
     ∧ name col ∈ get_column_names self include exclude include_primarykeys)
  ∧ (col ∉ get_column_objects self include exclude include_primarykeys ↔
       include_primarykeys = false
       ∧ (name col ∈ exclude ∨ (include ≠ [] ∧ name col ∉ include))).
Proof.
  intros Hin Hpk. split.
  - intros ->. pose proof (primary_key_forced self include exclude col Hin Hpk).
    split; [done|]. unfold get_column_names. apply list_elem_of_fmap. eauto.
  - destruct include_primarykeys.
    + split; [|by intros [? _]].
      intros Hno. destruct Hno. by apply primary_key_forced.
    + rewrite get_column_objects_elem. cbv zeta.
      rewrite !andb_false_r. rewrite <- (nonempty_true include).
      destruct (nonempty include).
      * split.
        -- intros Hno. split; [done|].
           destruct (decide (name col ∈ exclude)) as [|Hex]; [by left|].
           right. split; [done|]. intros Hinc. apply Hno. split; [done|].
           by right.
        -- intros [_ [Hex|[_ Hinc]]] [_ [?|[? ?]]]; done.
      * split.
        -- intros Hno. split; [done|]. left.
           destruct (decide (name col ∈ exclude)) as [|Hex]; [done|].
           destruct Hno. by split.
        -- intros [_ [Hex|[? _]]] [_ ?]; done.
Qed.

(** ** Type-aware fragments *)

Lemma format_timestamp_select (n : string) :
  format "CAST(strftime('%s', {0}) as integer) AS {0}" [FStr n]
  = "CAST(strftime('%s', " +:+ n +:+ ") as integer) AS " +:+ n.
Proof.
  change (format _ _)
    with ("CAST(strftime('%s', " +:+ n +:+ ") as integer) AS "
          +:+ (n +:+ EmptyString)).
  by rewrite string_app_empty_r.
Qed.

Lemma format_datetime_select (n : string) :
  format "datetime({0}) AS {0}" [FStr n] = "datetime(" +:+ n +:+ ") AS " +:+ n.
Proof.
  change (format _ _) with ("datetime(" +:+ n +:+ ") AS " +:+ (n +:+ EmptyString)).
  by rewrite string_app_empty_r.
Qed.

Lemma format_timestamp_where (n : string) :
  format "CAST(strftime('%s', {}) as integer)" [FStr n]
  = "CAST(strftime('%s', " +:+ n +:+ ") as integer)".
Proof. reflexivity. Qed.

Lemma format_datetime_where (n : string) :
  format "datetime({})" [FStr n] = "datetime(" +:+ n +:+ ")".
Proof. reflexivity. Qed.

Lemma format_bare (n : string) : format "{}" [FStr n] = n.
Proof. exact (string_app_empty_r n). Qed.

(** The search loop returns the first descriptor carrying the name. *)
Lemma where_lookup_unique (self : list DotDict) (col : DotDict) :
  col ∈ self → NoDup (columns self) →
  where_lookup self (name col) None = Some col.
Proof.
  induction self as [|c rest IH]; intros Hin Hnd; [by apply elem_of_nil in Hin|].
  simpl. apply NoDup_cons in Hnd as [Hfresh Hnd].
  apply elem_of_cons in Hin as [->|Hin].
  - by rewrite decide_True.
  - rewrite decide_False; [by apply IH|].
    intros Heq. apply Hfresh. rewrite Heq.
    apply list_elem_of_fmap. eauto.
Qed.

Lemma where_lookup_missing (self : list DotDict) (column : string) :
  column ∉ columns self → where_lookup self column None = None.
Proof.
  induction self as [|c rest IH]; intros Hno; [done|]. simpl.
  rewrite decide_False.
  - apply IH. intros Hin. apply Hno. by right.
  - intros Heq. apply Hno. rewrite <- Heq. by left.
Qed.

(** C1 at the [command] table: its key [id] survives an [exclude] that
    names it and an [include] that omits it. *)
Lemma primary_keys_selected_command :
  (Example.command_id ∈ Example.command
   ∧ primarykey Example.command_id = true)
  ∧ Example.command_id
      ∈ get_column_objects Example.command ["value"] ["id"; "result"] true
  ∧ name Example.command_id
      ∈ get_column_names Example.command ["value"] ["id"; "result"] true.
Proof.
  assert (Hin : Example.command_id ∈ Example.command) by compute_done.
  assert (Hpk : primarykey Example.command_id = true) by reflexivity.
  split; [done|].
  exact (proj1 (primary_keys_selected Example.command ["value"] ["id"; "result"]
                  true Example.command_id Hin Hpk) eq_refl).
Defined.

(** C2 as stated fails: for a name outside the schema the error raised is
    the built-in [ValueError], which is no instance of [InvalidArgument]
    (nor of any other API exception class). *)
Lemma where_condition_raises_ValueError :
  ("nope" ∉ columns Example.command)
  ∧ where_condition Example.command "nope"
    = Raise (ValueError "Non-existent column specified")
  ∧ isinstance (ValueError "Non-existent column specified") InvalidArgument
    = false
  ∧ ¬ (∃ e, where_condition Example.command "nope" = Raise e
            ∧ isinstance e InvalidArgument = true).
Proof.
  assert (Hv : where_condition Example.command "nope"
               = Raise (ValueError "Non-existent column specified"))
    by reflexivity.
  split; [compute_done|]. split; [done|]. split; [reflexivity|].
  intros (e & He & Hcls). rewrite Hv in He. by injection He as <-.
Qed.

(** C2, amended.  For every column name that matches no descriptor of the
    schema, [where_condition] raises [ValueError] with the message
    "Non-existent column specified"; it returns no fragment. *)
Theorem where_condition_unknown_column (self : list DotDict) (column : string) :
  column ∉ columns self →
  where_condition self column = Raise (ValueError "Non-existent column specified").
Proof.
  intros Hno. unfold where_condition. by rewrite where_lookup_missing.
Qed.

(** C2, amended, at the [command] table, which has no column [session]. *)
Lemma where_condition_unknown_column_command :
  ("session" ∉ columns Example.command)
  ∧ where_condition Example.command "session"
    = Raise (ValueError "Non-existent column specified").
Proof.
  assert (Hno : "session" ∉ columns Example.command) by compute_done.
  split; [done|].
  exact (where_condition_unknown_column Example.command "session" Hno).
Defined.

(** C3.  For a descriptor of a schema whose column names are distinct: a
    TIMESTAMP column selects as the integer epoch-seconds cast aliased to
    the column name and compares as the same cast without the alias; a
    DATETIME column selects as [datetime(name)] aliased to the column name
    and compares as [datetime(name)]; any other declared type gives the
    bare column name in both places. *)
Theorem typecast_fragments (self : list DotDict) (col : DotDict) :
  col ∈ self → NoDup (columns self) →
  (datatype col = "TIMESTAMP" →
     select_typecast self col
     = "CAST(strftime('%s', " +:+ name col +:+ ") as integer)"
       +:+ " AS " +:+ name col
     ∧ where_condition self (name col)
       = Ok ("CAST(strftime('%s', " +:+ name col +:+ ") as integer)"))
  ∧ (datatype col = "DATETIME" →
       select_typecast self col
       = "datetime(" +:+ name col +:+ ")" +:+ " AS " +:+ name col
       ∧ where_condition self (name col) = Ok ("datetime(" +:+ name col +:+ ")"))
  ∧ (datatype col ≠ "TIMESTAMP" → datatype col ≠ "DATETIME" →
       select_typecast self col = name col
       ∧ where_condition self (name col) = Ok (name col)).
Proof.
  intros Hin Hnd. unfold select_typecast, where_condition.
  rewrite (where_lookup_unique self col Hin Hnd). cbv beta iota.
  split; [|split].
  - intros Hty. rewrite !decide_True by done.
    by rewrite format_timestamp_select, format_timestamp_where.
  - intros Hty. rewrite !(decide_False (P := datatype col = "TIMESTAMP"))
      by (by rewrite Hty).
    rewrite !decide_True by done.
    by rewrite format_datetime_select, format_datetime_where.
  - intros Hts Hdt. rewrite !decide_False by done. by rewrite format_bare.
Qed.

(** C3 at the TIMESTAMP column [created] of the [command] table. *)
Lemma typecast_fragments_command :
  (Example.command_created ∈ Example.command ∧ NoDup (columns Example.command))
  ∧ select_typecast Example.command Example.command_created
    = "CAST(strftime('%s', created) as integer) AS created"
  ∧ where_condition Example.command "created"
    = Ok "CAST(strftime('%s', created) as integer)".
Proof.
  assert (Hin : Example.command_created ∈ Example.command) by compute_done.
  assert (Hnd : NoDup (columns Example.command)) by compute_done.
  split; [done|].
  exact (proj1 (typecast_fragments Example.command Example.command_created
                  Hin Hnd) eq_refl).
Defined.

(** C4.  [select_columns] is [", ".join] of [select_typecast] mapped, in
    order, over what [get_column_objects] returns for the same arguments. *)
Theorem select_columns_composes (self : list DotDict)
    (include exclude : list string) (include_primarykeys : bool) :
  select_columns self include exclude include_primarykeys
  = join ", "
      (select_typecast self
         <$> get_column_objects self include exclude include_primarykeys).
Proof.
  unfold select_columns, get_column_objects. cbv zeta.
  set (flist := if negb (nonempty include) then _ else _).
  f_equal.
  rewrite (foldl_append_map (select_typecast self)); [done|].
  intros slist col. unfold select_typecast.
  by repeat case_decide.
Qed.

(** ** Response envelope *)

Import Api.

Lemma try_except_returns {A} (body : result A) (handler : exception → result A)
    (a : A) :
  body = Ok a → try_except body handler = Ok a.
Proof. by intros ->. Qed.

Lemma format_internal_error (m : string) :
  format "api.__make_response() Internal Error: {}" [FStr m]
  = "api.__make_response() Internal Error: " +:+ m.
Proof.
  change (format _ _)
    with ("api.__make_response() Internal Error: " +:+ (m +:+ EmptyString)).
  by rewrite string_app_empty_r.
Qed.

(** The fallback response of [__make_response]. *)
Lemma make_response_fallback (rt : Runtime) (code : Z)
    (payload : gmap string value) (e : exception) :
  __make_response_try rt code payload = Raise e →
  __make_response rt code payload
  = Ok (response_class
          ("api.__make_response() Internal Error: " +:+ str_exception e)
          500 None).
Proof.
  intros Hraise. unfold __make_response. rewrite Hraise. simpl.
  by rewrite format_internal_error.
Qed.

Lemma make_response_returns (rt : Runtime) (code : Z)
    (payload : gmap string value) :
  ∃ r, __make_response rt code payload = Ok r.
Proof.
  destruct (__make_response_try rt code payload) as [r|e] eqn:Htry.
  - exists r. unfold __make_response. by rewrite Htry.
  - eexists. by apply make_response_fallback.
Qed.

(** A handler around a call of [__make_response] is never entered. *)
Lemma try_make_response (rt : Runtime) (code : Z) (payload : gmap string value)
    (handler : exception → result Response) :
  try_except (__make_response rt code payload) handler
  = __make_response rt code payload.
Proof.
  destruct (make_response_returns rt code payload) as [r Hr].
  rewrite Hr. by apply try_except_returns.
Qed.

(** What a completed [try] block did. *)
Lemma make_response_try_inv (rt : Runtime) (code : Z)
    (payload : gmap string value) (r : Response) :
  __make_response_try rt code payload = Ok r →
  ∃ t_cpu_start t_real_start methods,
    g_t_cpu_start rt = Ok t_cpu_start
    ∧ g_t_real_start rt = Ok t_real_start
    ∧ url_rule_methods rt = Ok methods
    ∧ json_dumps rt
        (PyDict (<["api" := api_element (apiversion rt)
                              (process_time rt - t_cpu_start)%float
                              (perf_counter rt - t_real_start)%float]> payload))
      = Ok (data r)
    ∧ status_code r = code
    ∧ mimetype r = Some "application/json"
    ∧ headers r !! "Allow"
      = Some (join ", " (filter (λ method, method ∉ ["HEAD"; "OPTIONS"]) methods)).
Proof.
  unfold __make_response_try.
  destruct (g_t_cpu_start rt) as [t_cpu_start|]; [|done].
  destruct (g_t_real_start rt) as [t_real_start|]; [|done]. simpl.
  destruct (json_dumps rt _) as [text|] eqn:Hdumps; [|done]. simpl.
  destruct (url_rule_methods rt) as [methods|]; [|done]. simpl.
  intros [= <-]. exists t_cpu_start, t_real_start, methods. simpl.
  repeat split; first [done | by rewrite lookup_insert_ne, lookup_insert_eq].
Qed.

Lemma make_response_status (rt : Runtime) (code : Z)
    (payload : gmap string value) (r : Response) :
  __make_response rt code payload = Ok r →
  status_code r = code ∨ status_code r = 500%Z.
Proof.
  destruct (__make_response_try rt code payload) as [r'|e] eqn:Htry.
  - unfold __make_response. rewrite Htry. intros [= <-]. left.
    by destruct (make_response_try_inv _ _ _ _ Htry) as (?&?&?&?&?&?&?&?&?).
  - rewrite (make_response_fallback _ _ _ _ Htry). intros [= <-]. by right.
Qed.

Lemma make_response_500 (rt : Runtime) (payload : gmap string value)
    (r : Response) :
  __make_response rt 500 payload = Ok r → status_code r = 500%Z.
Proof. intros H. by destruct (make_response_status _ _ _ _ H). Qed.

(** The response of a [try] block that completes. *)
Lemma make_response_built (rt : Runtime) (code : Z)
    (payload : gmap string value) (t_cpu_start t_real_start : float)
    (text : string) (methods : list string) :
  g_t_cpu_start rt = Ok t_cpu_start →
  g_t_real_start rt = Ok t_real_start →
  json_dumps rt
    (PyDict (<["api" := api_element (apiversion rt)
                          (process_time rt - t_cpu_start)%float
                          (perf_counter rt - t_real_start)%float]> payload))
  = Ok text →
  url_rule_methods rt = Ok methods →
  __make_response rt code payload
  = Ok {| data := text; status_code := code;
          mimetype := Some "application/json";
          headers :=
            <["Content-Type" := "application/json"]>
              (<["Allow" :=
                   join ", " (filter (λ method, method ∉ ["HEAD"; "OPTIONS"])
                                     methods)]> ∅) |}.
Proof.
  intros Hcpu Hreal Hdumps Hrule. unfold __make_response, __make_response_try.
  rewrite Hcpu, Hreal. simpl. rewrite Hdumps. simpl. by rewrite Hrule.
Qed.

(** The same, read off the response. *)
Lemma make_response_delivers (rt : Runtime) (code : Z)
    (payload : gmap string value) (text : string) (methods : list string) :
  envelope_builds rt payload text methods →
  ∃ r, __make_response rt code payload = Ok r
       ∧ status_code r = code ∧ data r = text
       ∧ mimetype r = Some "application/json".
Proof.
  intros (t_cpu_start & t_real_start & Hcpu & Hreal & Hdumps & Hrule).
  eexists. split; [by eapply make_response_built|]. done.
Qed.




(** ** Exception translation *)


Lemma to_dict_details (message : string) (details : value) :
  to_dict message details !! "details"
  = if truthy details then Some details else None.
Proof.
  unfold to_dict. destruct (truthy details).
  - apply lookup_insert_eq.
  - by rewrite lookup_singleton_ne.
Qed.


(** An API exception whose class sets [code] is handed to
    [__make_response] with that code and its [to_dict]. *)
Lemma exception_response_api (rt : Runtime) (cls : kind) (message : string)
    (details : value) (status : Z) :
  code cls = Some status →
  exception_response rt (Exc (Api cls message details))
  = __make_response rt status (to_dict message details).
Proof.
  intros Hcode. unfold exception_response, exception_response_try, getattr_code.
  simpl. rewrite Hcode. simpl. apply try_make_response.
Qed.

(** An instance of [ApiException] itself has no [code]: reading it raises
    inside the [try] block and the generic payload goes out. *)
Lemma exception_response_without_code (rt : Runtime) (message : string)
    (details : value) :
  exception_response rt (Exc (Api ApiException message details))
  = __make_response rt 500
      (<["error" := PyStr "Internal Error"]>
      (<["details" := PyStr "api.exception_response() internal failure!"]> ∅)).
Proof. reflexivity. Qed.














(** ** CSV streaming *)

(** Writing into an empty buffer at position 0 leaves just the text. *)
Lemma write_fresh (s : string) :
  getvalue (write s StringIO_new) = s.
Proof.
  unfold write, StringIO_new. simpl.
  destruct (String.length s); exact (string_app_empty_r s).
Qed.

(** [seek(0)] then [truncate(0)] gives back an empty buffer at position 0. *)
Lemma rewind_truncate (data : StringIO) :
  truncate 0 (seek 0 data) = StringIO_new.
Proof. unfold truncate, seek, StringIO_new. simpl. by destruct (getvalue data). Qed.

Lemma generate_rows_fresh (csv_line : list value → string)
    (cursor : list (list value)) :
  generate_rows csv_line StringIO_new cursor = csv_line <$> cursor.
Proof.
  induction cursor as [|row rest IH]; [done|].
  change (generate_rows csv_line StringIO_new (row :: rest))
    with (getvalue (writerow csv_line row StringIO_new)
          :: generate_rows csv_line
               (truncate 0 (seek 0 (writerow csv_line row StringIO_new))) rest).
  rewrite rewind_truncate, IH. unfold writerow. by rewrite write_fresh.
Qed.

(** C8.  For a cursor with a description and N rows, [generate] yields the
    CSV line of the column names first and then one CSV line per row, in
    order: N + 1 chunks, and the header line alone when there is no row. *)
Theorem generate_header_then_rows (csv_line : list value → string)
    (description : list (string * list value)) (cursor : list (list value)) :
  generate csv_line description cursor
  = csv_line (PyStr <$> description.*1) :: (csv_line <$> cursor)
  ∧ length (generate csv_line description cursor) = S (length cursor)
  ∧ generate csv_line description []
    = [csv_line (PyStr <$> description.*1)].
Proof.
  assert (Hgen : ∀ rows, generate csv_line description rows
                 = csv_line (PyStr <$> description.*1) :: (csv_line <$> rows)).
  { intros rows. unfold generate. cbv zeta.
    rewrite rewind_truncate, generate_rows_fresh. unfold writerow.
    rewrite write_fresh. do 2 f_equal. by rewrite <- list_fmap_compose. }
  split; [apply Hgen|]. split; [|apply Hgen].
  rewrite Hgen. simpl. by rewrite length_fmap.
Qed.

(** ** The generated [hitcount] columns *)

Import CreateDatabase.

(** C9.  The enumeration reads nothing but its own loop counters, so every
    run builds this one list: the 37 × (12 + 8) = 740 sector counters
    followed by the 2 × (2 + 4 + 1 + 2) = 18 telescope counters, each
    declared [INTEGER NOT NULL], 37 × 20 + 2 × 9 column definitions in all;
    the statement executed declares the columns [timestamp] and
    [session_id] and then exactly these, all names distinct. *)
Theorem hitcount_columns :
  hitcount_cols
  = (λ column, column +:+ " INTEGER NOT NULL, ")
      <$> (sector_counters ++ telescope_counters)
  ∧ length sector_counters = 37 * (12 + 8)
  ∧ length telescope_counters = 2 * (2 + 4 + 1 + 2)
  ∧ length hitcount_cols = 37 * 20 + 2 * 9
  ∧ column_name <$> hitcount_cols = sector_counters ++ telescope_counters
  ∧ ddl_columns hitcount_sql
    = "timestamp" :: "session_id" :: sector_counters ++ telescope_counters
  ∧ NoDup (ddl_columns hitcount_sql).
Proof.
  repeat split; try (vm_compute; reflexivity).
  apply (bool_decide_unpack _). vm_compute. exact I.
Qed.

(** ** [str()] of descriptors and of a [DataObject] *)

Lemma init_descriptors (exclude : list string)
    (cursor : list pragma_table_info.row) (self : list DotDict) :
  foldl
    (λ self row,
       if decide (pragma_table_info.name row ∉ exclude)
       then self ++ [descriptor row]
       else self)
    self cursor
  = self ++ (descriptor
               <$> filter (λ row, pragma_table_info.name row ∉ exclude) cursor).
Proof.
  revert self. induction cursor as [|row rest IH]; intros self; simpl.
  - by rewrite app_nil_r.
  - rewrite IH, filter_cons. case_decide; [|done].
    by rewrite <- app_assoc.
Qed.

Lemma DotDict_str_raises (col : DotDict) :
  DotDict__str__ col = Raise (TypeError "'NoneType' object is not callable").
Proof. reflexivity. Qed.

Lemma DataObject_str_raises (self : list DotDict) :
  self ≠ [] →
  __str__ self = Raise (TypeError "'NoneType' object is not callable").
Proof. by destruct self. Qed.

(** C10 as stated fails: over the four-column table [pate], a [DataObject]
    built with all four names excluded holds no descriptor and its [str()]
    is the empty string. *)
Lemma str_of_fully_excluded_table :
  length Example.pate_info = 4
  ∧ __init__ Example.pate_info ["id"; "id_min"; "id_max"; "label"] = []
  ∧ __str__ (__init__ Example.pate_info ["id"; "id_min"; "id_max"; "label"])
    = Ok EmptyString.
Proof. by repeat split. Qed.

(** C10, amended.  [str()] of any column descriptor raises [TypeError]
    ("'NoneType' object is not callable") instead of returning the column
    name: the attribute [getattr] falls back to [dict.get], which gives
    [None].  Hence [str()] of a [DataObject] raises the same error whenever
    it holds at least one descriptor, that is, whenever the table has a
    column that [__init__] was not told to exclude. *)
Theorem str_raises_TypeError :
  (∀ col, __getattr__ col "getattr" = AttrNone
          ∧ DotDict__str__ col
            = Raise (TypeError "'NoneType' object is not callable"))
  ∧ (∀ self, self ≠ [] →
       __str__ self = Raise (TypeError "'NoneType' object is not callable"))
  ∧ (∀ cursor exclude row,
       row ∈ cursor → pragma_table_info.name row ∉ exclude →
       __str__ (__init__ cursor exclude)
       = Raise (TypeError "'NoneType' object is not callable")).
Proof.
  split; [done|]. split; [apply DataObject_str_raises|].
  intros cursor exclude row Hin Hkeep. apply DataObject_str_raises.
  unfold __init__. rewrite init_descriptors. simpl.
  assert (Hrow : row ∈ filter (λ row, pragma_table_info.name row ∉ exclude) cursor)
    by by apply list_elem_of_filter.
  intros Hnil. apply fmap_nil_inv in Hnil. rewrite Hnil in Hrow.
  by apply elem_of_nil in Hrow.
Qed.

(** C10, amended, at the [command] table read with nothing excluded. *)
Lemma str_raises_TypeError_command :
  __str__ Example.command
  = Raise (TypeError "'NoneType' object is not callable").
Proof.
  refine (proj1 (proj2 str_raises_TypeError) Example.command _).
  discriminate.
Defined.

(** * Further properties of the column helper *)

Lemma foldl_append_decide {A} (P : A → Prop) `{!∀ x, Decision (P x)}
    (l acc : list A) :
  foldl (λ acc x, if decide (P x) then acc ++ [x] else acc) acc l
  = acc ++ filter P l.
Proof.
  revert acc. induction l as [|x l IH]; intros acc; simpl.
  - by rewrite app_nil_r.
  - rewrite IH, filter_cons. case_decide; [|done]. by rewrite <- app_assoc.
Qed.

Lemma filter_fmap_list {A B} (f : A → B) (P : B → Prop)
    `{!∀ y, Decision (P y)} (l : list A) :
  filter P (f <$> l) = f <$> filter (λ x, P (f x)) l.
Proof.
  induction l as [|x l IH]; [done|]. csimpl.
  rewrite !filter_cons, IH. by case_decide.
Qed.

Lemma filter_all {A} (P : A → Prop) `{!∀ x, Decision (P x)} (l : list A) :
  (∀ x, x ∈ l → P x) → filter P l = l.
Proof.
  induction l as [|x l IH]; intros Hall; [done|].
  rewrite filter_cons, decide_True by (apply Hall; left).
  f_equal. apply IH. intros y Hy. apply Hall. by right.
Qed.

(** X1.  [missing_columns] returns the given names that the table lacks,
    in the order given and with repetitions kept; it returns the empty
    list exactly when every given name is a column of the table. *)
Theorem missing_columns_absent (self : list DotDict) (names : list string) :
  missing_columns self names = filter (λ column, column ∉ columns self) names
  ∧ (∀ column, column ∈ missing_columns self names ↔
       column ∈ names ∧ column ∉ columns self)
  ∧ (missing_columns self names = [] ↔
       ∀ column, column ∈ names → column ∈ columns self).
Proof.
  assert (Heq : missing_columns self names
                = filter (λ column, column ∉ columns self) names).
  { destruct names as [|n rest]; [done|]. unfold missing_columns.
    by rewrite (foldl_append_decide (λ column, column ∉ columns self)). }
  split; [done|]. rewrite Heq. clear Heq. split.
  - intros column. rewrite list_elem_of_filter. tauto.
  - split.
    + intros Hnil column Hin.
      destruct (decide (column ∈ columns self)) as [|Hno]; [done|].
      by destruct (filter_nil_not_elem_of _ _ column Hnil Hno).
    + intros Hall. induction names as [|n rest IH]; [done|].
      rewrite filter_cons, decide_False.
      * apply IH. intros column Hin. apply Hall. by right.
      * intros Hno. apply Hno, Hall. by left.
Qed.

(** X2.  The columns of a [DataObject] are the names the catalogue
    reports, in catalogue order, minus those in the constructor's
    [exclude]; no excluded name is a column.  Its primary keys are the
    kept names whose [pk] entry is exactly 1, so of a composite key only
    the first column counts. *)
Theorem init_columns (cursor : list pragma_table_info.row)
    (exclude : list string) :
  columns (__init__ cursor exclude)
  = filter (λ column, column ∉ exclude) (pragma_table_info.name <$> cursor)
  ∧ (∀ column, column ∈ exclude → column ∉ columns (__init__ cursor exclude))
  ∧ primarykeys (__init__ cursor exclude)
    = pragma_table_info.name
        <$> filter (λ row, pragma_table_info.pk row = 1%Z
                           ∧ pragma_table_info.name row ∉ exclude) cursor.
Proof.
  assert (Hinit : __init__ cursor exclude
                  = descriptor
                      <$> filter (λ row, pragma_table_info.name row ∉ exclude)
                                 cursor).
  { unfold __init__. by rewrite init_descriptors. }
  assert (Hcols : columns (__init__ cursor exclude)
                  = filter (λ column, column ∉ exclude)
                           (pragma_table_info.name <$> cursor)).
  { rewrite Hinit. unfold columns. rewrite <- list_fmap_compose.
    by rewrite filter_fmap_list. }
  split; [done|]. split.
  - intros column Hex. rewrite Hcols, list_elem_of_filter. tauto.
  - rewrite Hinit. unfold primarykeys.
    rewrite (filter_fmap_list descriptor (λ col, primarykey col)).
    rewrite list_filter_filter, <- list_fmap_compose.
    f_equal. apply list_filter_iff. intros row. simpl.
    case_decide; simpl; tauto.
Qed.

(** X3.  Whatever the arguments, [get_column_objects] returns descriptors
    of the table in table order: it drops columns but never reorders,
    repeats or invents one. *)
Theorem get_column_objects_sublist (self : list DotDict)
    (include exclude : list string) (include_primarykeys : bool) :
  get_column_objects self include exclude include_primarykeys
  `sublist_of` self.
Proof.
  unfold get_column_objects. cbv zeta.
  set (purged := if nonempty exclude && include_primarykeys then _ else _).
  destruct (nonempty include); simpl; [|apply sublist_filter].
  rewrite (foldl_append_if
    (λ c, primarykey c && include_primarykeys
          || bool_decide (name c ∈ include) && bool_decide (name c ∉ purged))).
  - apply sublist_filter.
  - intros acc x. by destruct (primarykey x && include_primarykeys).
Qed.

(** X4.  Called with its defaults [get_column_objects] returns the whole
    table; and while [include_primarykeys] is true, an [exclude] list that
    names primary keys only changes nothing. *)
Theorem get_column_objects_everything (self : list DotDict)
    (exclude : list string) (include_primarykeys : bool) :
  get_column_objects self [] [] include_primarykeys = self
  ∧ ((∀ column, column ∈ exclude → column ∈ primarykeys self) →
     get_column_objects self [] exclude true = self).
Proof.
  split.
  - unfold get_column_objects. simpl. apply filter_all.
    intros col _. apply not_elem_of_nil.
  - intros Hkeys. unfold get_column_objects. simpl.
    apply filter_all. intros col _.
    destruct exclude as [|n rest]; simpl; [apply not_elem_of_nil|].
    rewrite list_elem_of_filter. intros [Hno Hin]. by apply Hno, Hkeys.
Qed.

(** X5.  Every selected descriptor has a reason to be there: it belongs to
    the table; if [include] is not empty it is named there or is a primary
    key kept by the flag; and if its name is in [exclude], then the flag is
    set and the name is one of the table's primary keys. *)
Theorem get_column_objects_justified (self : list DotDict)
    (include exclude : list string) (include_primarykeys : bool)
    (col : DotDict) :
  col ∈ get_column_objects self include exclude include_primarykeys →
  col ∈ self
  ∧ (include = [] ∨ name col ∈ include
     ∨ (primarykey col = true ∧ include_primarykeys = true))
  ∧ (name col ∈ exclude →
     include_primarykeys = true ∧ name col ∈ primarykeys self).
Proof.
  rewrite get_column_objects_elem. cbv zeta. intros [Hin Hsel].
  split; [done|].
  assert (Hpurged : ∀ n,
    n ∈ exclude →
    n ∉ (if nonempty exclude && include_primarykeys
         then filter (λ c, c ∉ primarykeys self) exclude else exclude) →
    include_primarykeys = true ∧ n ∈ primarykeys self).
  { intros n Hex. destruct (nonempty exclude), include_primarykeys; simpl;
      try done.
    rewrite list_elem_of_filter. intros Hno. split; [done|].
    destruct (decide (n ∈ primarykeys self)); [done|]. by destruct Hno. }
  destruct include as [|i rest]; simpl in Hsel.
  - split; [by left|]. intros Hex. by apply Hpurged.
  - destruct Hsel as [Hpk|[Hinc Hno]].
    + apply andb_true_iff in Hpk as [Hpk ->]. split; [by right; right|].
      intros _. split; [done|]. by apply primarykeys_elem.
    + split; [by right; left|]. intros Hex. by apply Hpurged.
Qed.

(** X5 at the [command] table: [id] is selected although excluded, being
    the primary key. *)
Lemma get_column_objects_justified_command :
  Example.command_id
    ∈ get_column_objects Example.command ["value"] ["id"; "value"] true
  ∧ Example.command_id ∈ Example.command
  ∧ name Example.command_id ∈ primarykeys Example.command.
Proof.
  assert (Hsel : Example.command_id
                 ∈ get_column_objects Example.command ["value"] ["id"; "value"]
                     true) by compute_done.
  split; [done|].
  destruct (get_column_objects_justified Example.command ["value"]
              ["id"; "value"] true Example.command_id Hsel)
    as (Hin & _ & Hex).
  split; [done|]. apply Hex. compute_done.
Defined.

(** X6.  [where_condition] returns a fragment exactly for the names that
    are columns of the table, and raises for every other name. *)
Theorem where_condition_defined (self : list DotDict) (column : string) :
  ((∃ fragment, where_condition self column = Ok fragment)
   ↔ column ∈ columns self)
  ∧ ((∃ e, where_condition self column = Raise e) ↔ column ∉ columns self).
Proof.
  assert (Hfound : column ∈ columns self →
                   ∃ fragment, where_condition self column = Ok fragment).
  { intros Hin. unfold where_condition.
    assert (Hsome : ∃ col, where_lookup self column None = Some col).
    { induction self as [|c rest IH]; [by apply elem_of_nil in Hin|].
      simpl. case_decide as Hname; [by eexists|].
      apply IH. apply elem_of_cons in Hin as [Heq|Hin]; [|done].
      by destruct Hname. }
    destruct Hsome as [col ->]. repeat case_decide; by eexists. }
  split; split.
  - intros [fragment Hok].
    destruct (decide (column ∈ columns self)) as [|Hno]; [done|].
    unfold where_condition in Hok. by rewrite where_lookup_missing in Hok.
  - done.
  - intros [e He] Hin. destruct (Hfound Hin) as [fragment Hok]. congruence.
  - intros Hno. eexists. unfold where_condition.
    by rewrite where_lookup_missing.
Qed.

(** * Further properties of the response functions *)

(** X7.  [__make_response] overwrites an [api] entry the payload brings
    along: the response does not depend on it. *)
Theorem make_response_overwrites_api (rt : Runtime) (code : Z)
    (payload : gmap string value) (own : value) :
  __make_response rt code (<["api" := own]> payload)
  = __make_response rt code payload.
Proof.
  unfold __make_response, __make_response_try.
  destruct (g_t_cpu_start rt) as [t_cpu_start|]; [|done].
  destruct (g_t_real_start rt) as [t_real_start|]; [|done]. simpl.
  by rewrite insert_insert_eq.
Qed.

(** X8.  When the timers are set, the payload serialises and a rule
    matched, [__make_response] returns the serialised text with the given
    status and mimetype [application/json]; its header [Content-Type] is
    [application/json] and its header [Allow] lists the rule's methods in
    order without HEAD and OPTIONS. *)
Theorem make_response_success (rt : Runtime) (code : Z)
    (payload : gmap string value) (t_cpu_start t_real_start : float)
    (text : string) (methods : list string) :
  g_t_cpu_start rt = Ok t_cpu_start →
  g_t_real_start rt = Ok t_real_start →
  json_dumps rt
    (PyDict (<["api" := api_element (apiversion rt)
                          (process_time rt - t_cpu_start)%float
                          (perf_counter rt - t_real_start)%float]> payload))
  = Ok text →
  url_rule_methods rt = Ok methods →
  ∃ r allow,
    __make_response rt code payload = Ok r
    ∧ data r = text ∧ status_code r = code
    ∧ mimetype r = Some "application/json"
    ∧ headers r !! "Content-Type" = Some "application/json"
    ∧ headers r !! "Allow" = Some (join ", " allow)
    ∧ allow `sublist_of` methods
    ∧ ("HEAD" ∉ allow) ∧ ("OPTIONS" ∉ allow)
    ∧ (∀ method, method ∈ methods → method ≠ "HEAD" → method ≠ "OPTIONS" →
         method ∈ allow).
Proof.
  intros Hcpu Hreal Hdumps Hrule.
  eexists _, (filter (λ method, method ∉ ["HEAD"; "OPTIONS"]) methods).
  split.
  { by apply (make_response_built rt code payload t_cpu_start t_real_start). }
  split; [done|]. split; [done|]. split; [done|].
  split; [apply lookup_insert_eq|].
  split; [by cbn [headers]; rewrite lookup_insert_ne, lookup_insert_eq|].
  split; [apply sublist_filter|].
  split; [|split]; rewrite ?list_elem_of_filter.
  + intros [Hno _]. apply Hno. by left.
  + intros [Hno _]. apply Hno. by right; left.
  + intros method Hin Hhead Hoptions. apply list_elem_of_filter.
    split; [|done]. rewrite !elem_of_cons, elem_of_nil. tauto.
Qed.

(** X8 for a payload [{"data": 1}] answered with status 200 on a rule
    registered for GET, HEAD, OPTIONS and POST. *)
Lemma make_response_success_example :
  ∃ r allow,
    __make_response Example.runtime 200 {["data" := PyInt 1]} = Ok r
    ∧ data r = "api,data" ∧ status_code r = 200%Z
    ∧ mimetype r = Some "application/json"
    ∧ headers r !! "Content-Type" = Some "application/json"
    ∧ headers r !! "Allow" = Some (join ", " allow)
    ∧ allow `sublist_of` ["GET"; "HEAD"; "OPTIONS"; "POST"]
    ∧ ("HEAD" ∉ allow) ∧ ("OPTIONS" ∉ allow)
    ∧ (∀ method, method ∈ ["GET"; "HEAD"; "OPTIONS"; "POST"] →
         method ≠ "HEAD" → method ≠ "OPTIONS" → method ∈ allow).
Proof.
  apply (make_response_success Example.runtime 200 {["data" := PyInt 1]}
           0.25%float 10%float "api,data" ["GET"; "HEAD"; "OPTIONS"; "POST"]);
    vm_compute; reflexivity.
Defined.


(** X10.  Only [ApiException] itself has no [code].  An instance of it is
    therefore not answered with its own message: reading [ex.code] raises
    inside the [try] block, and the response has status 500 and, when the
    envelope builds, is the text of the "Internal Error" payload. *)
Theorem exception_response_base_class (rt : Runtime) (message : string)
    (details : value) :
  (∀ cls, code cls = None ↔ cls = ApiException)
  ∧ exception_response_try rt (Exc (Api ApiException message details))
    = Raise (AttributeError "'ApiException' object has no attribute 'code'")
  ∧ (∃ r, exception_response rt (Exc (Api ApiException message details)) = Ok r)
  ∧ (∀ r, exception_response rt (Exc (Api ApiException message details)) = Ok r →
       status_code r = 500%Z)
  ∧ (∀ text methods,
       envelope_builds rt
         (<["error" := PyStr "Internal Error"]>
         (<["details" :=
              PyStr "api.exception_response() internal failure!"]> ∅))
         text methods →
       ∃ r, exception_response rt (Exc (Api ApiException message details)) = Ok r
            ∧ status_code r = 500%Z ∧ data r = text).
Proof.
  rewrite exception_response_without_code.
  split; [by intros []|]. split; [done|].
  split; [apply make_response_returns|].
  split; [intros r; apply make_response_500|].
  intros text methods Hbuilds.
  destruct (make_response_delivers rt 500 _ text methods Hbuilds)
    as (r & Hr & Hs & Hd & _).
  by exists r.
Qed.

(** X11.  [to_dict] keeps [details] exactly when they are true: details
    that are set but false (0, 0.0, the empty string, an empty list or
    dictionary, [False]) are dropped like [None], and the payload is then
    the message alone. *)
Theorem to_dict_drops_false_details (message : string) (details : value) :
  ("details" ∈ dom (to_dict message details) ↔ truthy details = true)
  ∧ (truthy details = false →
       to_dict message details = {["message" := PyStr message]})
  ∧ (details ∈ [PyNone; PyBool false; PyInt 0; PyFloat 0%float;
                PyStr EmptyString; PyList []; PyDict ∅] →
       to_dict message details = {["message" := PyStr message]}).
Proof.
  assert (Hfalse : truthy details = false →
            to_dict message details = {["message" := PyStr message]}).
  { intros Hd. unfold to_dict. by rewrite Hd. }
  split; [|split; [done|]].
  - rewrite elem_of_dom, to_dict_details.
    destruct (truthy details); split.
    + done.
    + intros _. by eexists.
    + by intros [? ?].
    + done.
  - intros Hin. apply Hfalse.
    repeat (apply elem_of_cons in Hin as [->|Hin]; [reflexivity|]).
    by apply elem_of_nil in Hin.
Qed.

(** X12.  An exception of one of the seven subclasses raised without
    arguments is answered, when the envelope builds, with the class's
    status and the text of a payload that holds the class's default
    message and nothing else. *)
Theorem exception_response_defaults (rt : Runtime) (cls : kind) (status : Z)
    (text : string) (methods : list string) :
  code cls = Some status →
  envelope_builds rt {["message" := PyStr (Exceptions.default_message cls)]}
    text methods →
  ∃ r, exception_response rt (Exc (Exceptions.new cls None None)) = Ok r
       ∧ status_code r = status ∧ data r = text
       ∧ mimetype r = Some "application/json".
Proof.
  intros Hcode Hbuilds. unfold Exceptions.new. simpl.
  rewrite (exception_response_api rt cls _ PyNone status Hcode).
  by apply (make_response_delivers rt status _ text methods).
Qed.

(** X12 for [raise NotFound()] during a healthy request. *)
Lemma exception_response_defaults_not_found :
  code NotFound = Some 404%Z
  ∧ Exceptions.default_message NotFound = "Entity not found!"
  ∧ ∃ r, exception_response Example.runtime
           (Exc (Exceptions.new NotFound None None)) = Ok r
         ∧ status_code r = 404%Z ∧ data r = "message,api"
         ∧ mimetype r = Some "application/json".
Proof.
  assert (Hcode : code NotFound = Some 404%Z) by reflexivity.
  split; [done|]. split; [done|].
  apply (exception_response_defaults Example.runtime NotFound 404
           "message,api" ["GET"; "HEAD"; "OPTIONS"; "POST"] Hcode).
  exists 0.25%float, 10%float. repeat split; vm_compute; reflexivity.
Defined.

(** * Properties of [application.py] *)

Import Application.

(** X13.  [app.apiversion] is the integer on the first line of
    [APIVERSION] that [int] accepts once stripped; the lines before it are
    skipped and the lines after it never read, so an error that reading
    them would raise does not matter. *)
Theorem apiversion_first_integer_line (int_of_str : string → result Z)
    (before after : list string) (line : string) (n : Z)
    (failure : option exception) :
  (∀ l, l ∈ before → ∃ e, int_of_str (strip l) = Raise e) →
  int_of_str (strip line) = Ok n →
  load_apiversion int_of_str
    (Some {| lines := before ++ line :: after; failure := failure |})
  = Ok n.
Proof.
  intros Hskip Hline. unfold load_apiversion. cbn [lines].
  assert (Hloop : apiversion_loop int_of_str (before ++ line :: after) = Some n).
  { induction before as [|l before IH]; simpl.
    - by rewrite Hline.
    - destruct (Hskip l) as [e ->]; [by left|].
      apply IH. intros l' Hin. apply Hskip. by right. }
  by rewrite Hloop.
Qed.

(** X13 for a file with a comment, the version and a further number. *)
Lemma apiversion_first_integer_line_example :
  load_apiversion Scenario.decimal
    (Some {| lines := ["# API version"] ++ " 2 " :: ["3"]; failure := None |})
  = Ok 2%Z.
Proof.
  apply (apiversion_first_integer_line Scenario.decimal ["# API version"] ["3"]
           " 2 " 2 None).
  - intros l Hin. apply list_elem_of_singleton in Hin as ->.
    eexists. vm_compute. reflexivity.
  - vm_compute. reflexivity.
Defined.

(** X14.  The fallback -1 is the version of a file that cannot be opened
    and of a file whose reading fails before a line with an integer was
    found.  Any other version returned was read from one of the file's
    lines.  When a file is read to its end and no line holds an integer
    (an empty file included), the start-up fails with [NameError] instead
    of falling back. *)
Theorem apiversion_without_integer (int_of_str : string → result Z)
    (version_file : TextFile) :
  load_apiversion int_of_str None = Ok (-1)%Z
  ∧ (∀ n, load_apiversion int_of_str (Some version_file) = Ok n →
       (∃ line, line ∈ lines version_file ∧ int_of_str (strip line) = Ok n)
       ∨ (n = (-1)%Z ∧ ∃ e, failure version_file = Some e))
  ∧ ((∀ line, line ∈ lines version_file →
              ∃ e, int_of_str (strip line) = Raise e) →
     (∀ e, failure version_file = Some e →
           load_apiversion int_of_str (Some version_file) = Ok (-1)%Z)
     ∧ (failure version_file = None →
        load_apiversion int_of_str (Some version_file)
        = Raise (OtherError "NameError" "name 'apiversion' is not defined"))).
Proof.
  split; [done|]. unfold load_apiversion. split.
  - intros n.
    destruct (apiversion_loop int_of_str (lines version_file))
      as [m|] eqn:Hloop.
    + intros [= ->]. left. revert Hloop.
      induction (lines version_file) as [|l rest IH]; simpl; [done|].
      destruct (int_of_str (strip l)) as [m|e] eqn:Hl.
      * intros [= ->]. exists l. split; [by left|done].
      * intros Hrest. destruct (IH Hrest) as (line & Hin & Hline).
        exists line. split; [by right|done].
    + destruct (failure version_file) as [e|]; [|done].
      intros [= <-]. right. split; [done|]. by exists e.
  - intros Hnone.
    assert (Hloop : apiversion_loop int_of_str (lines version_file) = None).
    { induction (lines version_file) as [|l rest IH]; simpl; [done|].
      destruct (Hnone l) as [e ->]; [by left|].
      apply IH. intros line Hin. apply Hnone. by right. }
    rewrite Hloop. split.
    + by intros e ->.
    + by intros ->.
Qed.

Lemma string_app_cons (c : ascii) (s t : string) :
  String c s +:+ t = String c (s +:+ t).
Proof. reflexivity. Qed.

Lemma string_app_assoc (s t u : string) : (s +:+ t) +:+ u = s +:+ (t +:+ u).
Proof.
  induction s as [|c s IH]; [done|].
  by rewrite !string_app_cons, IH.
Qed.

(** What [split] makes of a word under way: it is completed by the
    characters up to the next whitespace or the end of the text. *)
Lemma split_go_word (s word : string) :
  word ≠ EmptyString →
  ∃ more rest tail,
    split_go s word = (word +:+ more) :: rest
    ∧ s = more +:+ tail
    ∧ (∀ c, c ∈ String.list_ascii_of_string more → isspace c = false)
    ∧ (tail = EmptyString
       ∨ ∃ c tail', tail = String c tail' ∧ isspace c = true).
Proof.
  revert word. induction s as [|c s IH]; intros word Hword.
  - exists EmptyString, [], EmptyString. simpl.
    rewrite string_app_empty_r. destruct word; [done|].
    split; [done|]. split; [done|].
    split; [|by left]. intros c Hc. by apply elem_of_nil in Hc.
  - simpl. destruct (isspace c) eqn:Hc.
    + exists EmptyString, (split_go s EmptyString), (String c s).
      rewrite string_app_empty_r. destruct word; [done|].
      split; [done|]. split; [done|].
      split; [|right; by exists c, s].
      intros c' Hc'. by apply elem_of_nil in Hc'.
    + destruct (IH (word +:+ String c EmptyString))
        as (more & rest & tail & Hsplit & -> & Hmore & Htail).
      { destruct word; done. }
      exists (String c more), rest, tail. rewrite Hsplit.
      split; [by rewrite string_app_assoc|]. split; [done|].
      split; [|done].
      intros c' Hc'. simpl in Hc'.
      apply elem_of_cons in Hc' as [->|Hc']; [done|by apply Hmore].
Qed.

Lemma lstrip_head (s : string) (c : ascii) (rest : string) :
  lstrip s = String c rest → isspace c = false.
Proof.
  induction s as [|c' s IH]; simpl; [done|].
  destruct (isspace c') eqn:Hc'; [done|]. by intros [= <- <-].
Qed.

Lemma substring_first (c : ascii) (s : string) :
  String.substring 0 1 (String c s) = String c EmptyString.
Proof. by destruct s. Qed.

(** One turn of the loop over [APPVERSION]. *)
Lemma appversion_loop_cons (l : string) (rest : list string)
    (failure : option exception) (start : option string) :
  appversion_loop (l :: rest) failure start
  = if negb (0 <? String.length (strip l))
    then appversion_loop rest failure (Some (strip l))
    else if String.eqb (String.substring 0 1 (strip l)) "#"
    then appversion_loop rest failure (Some (strip l))
    else match split (strip l) with
         | token :: _ => Ok (Some token)
         | [] => Raise (IndexError "list index out of range")
         end.
Proof. reflexivity. Qed.

Lemma appversion_loop_skip (l : string) (rest : list string)
    (failure : option exception) (start : option string) :
  strip l = EmptyString ∨ String.substring 0 1 (strip l) = "#" →
  appversion_loop (l :: rest) failure start
  = appversion_loop rest failure (Some (strip l)).
Proof.
  intros [Hblank|Hcomment]; rewrite appversion_loop_cons.
  - by rewrite Hblank.
  - rewrite Hcomment. by destruct (negb _).
Qed.

Lemma appversion_loop_break (l : string) (rest : list string)
    (failure : option exception) (start : option string) (token : string)
    (more : list string) :
  strip l ≠ EmptyString → String.substring 0 1 (strip l) ≠ "#" →
  split (strip l) = token :: more →
  appversion_loop (l :: rest) failure start = Ok (Some token).
Proof.
  intros Hline Hsign Hsplit. rewrite appversion_loop_cons, Hsplit.
  apply String.eqb_neq in Hsign. rewrite Hsign.
  by destruct (strip l).
Qed.

(** X15.  For text of code points below 256: when [APPVERSION] has a line
    that, stripped, is neither empty nor a comment, the first such line
    decides.  [app.appversion] is its first word, whole: the stripped line
    is the word followed by nothing or by a whitespace character, and the
    word is not empty, holds no whitespace and does not start with the
    comment sign.  Blank and comment lines before it are skipped and
    nothing after it is read, so an error that reading on would raise does
    not matter. *)
Theorem appversion_first_word (before after : list string) (line : string)
    (failure : option exception) :
  (∀ l, l ∈ before →
        strip l = EmptyString ∨ String.substring 0 1 (strip l) = "#") →
  strip line ≠ EmptyString →
  String.substring 0 1 (strip line) ≠ "#" →
  ∃ token tail,
    load_appversion
      (Some {| lines := before ++ line :: after; failure := failure |})
    = Ok token
    ∧ strip line = token +:+ tail
    ∧ (tail = EmptyString
       ∨ ∃ c tail', tail = String c tail' ∧ isspace c = true)
    ∧ token ≠ EmptyString
    ∧ String.substring 0 1 token ≠ "#"
    ∧ ∀ c, c ∈ String.list_ascii_of_string token → isspace c = false.
Proof.
  intros Hskip Hline Hsign.
  destruct (strip line) as [|c stripped] eqn:Hstrip; [done|].
  assert (Hc : isspace c = false) by (by eapply lstrip_head).
  destruct (split_go_word stripped (String c EmptyString))
    as (more & rest & tail & Hsplit & Htail & Hmore & Hnext); [done|].
  assert (Hwords : split (strip line) = String c more :: rest).
  { rewrite Hstrip. unfold split.
    change (split_go (String c stripped) EmptyString)
      with (if isspace c then split_go stripped EmptyString
            else split_go stripped (String c EmptyString)).
    by rewrite Hc, Hsplit. }
  exists (String c more), tail.
  assert (Hloop : ∀ start,
            appversion_loop (before ++ line :: after) failure start
            = Ok (Some (String c more))).
  { induction before as [|l before IH]; intros start.
    - apply (appversion_loop_break line after failure start _ rest);
        [by rewrite Hstrip | by rewrite Hstrip | exact Hwords].
    - change ((l :: before) ++ line :: after)
        with (l :: (before ++ line :: after)).
      rewrite appversion_loop_skip by (apply Hskip; by left).
      apply IH. intros l' Hin. apply Hskip. by right. }
  unfold load_appversion. cbn [lines Application.failure]. rewrite Hloop.
  split; [done|]. split; [by rewrite Htail|]. split; [done|].
  split; [done|]. split.
  - by rewrite substring_first, <- (substring_first c stripped).
  - intros c' Hc'. simpl in Hc'.
    apply elem_of_cons in Hc' as [->|Hc']; [done|by apply Hmore].
Qed.

(** X15 for a file with a comment, a blank line and the line
    "  0.4.1  beta". *)
Lemma appversion_first_word_example :
  ∃ token tail,
    load_appversion
      (Some {| lines := ["# PATE Monitor"; "   "] ++ "  0.4.1  beta" :: ["9.9"];
               failure := None |})
    = Ok token
    ∧ strip "  0.4.1  beta" = token +:+ tail
    ∧ (tail = EmptyString
       ∨ ∃ c tail', tail = String c tail' ∧ isspace c = true)
    ∧ token ≠ EmptyString
    ∧ String.substring 0 1 token ≠ "#"
    ∧ ∀ c, c ∈ String.list_ascii_of_string token → isspace c = false.
Proof.
  apply (appversion_first_word ["# PATE Monitor"; "   "] ["9.9"]
           "  0.4.1  beta" None).
  - intros l Hin. apply elem_of_cons in Hin as [->|Hin]; [by right|].
    apply list_elem_of_singleton in Hin as ->. by left.
  - discriminate.
  - discriminate.
Defined.

(** X16.  For text of code points below 256: a version file that cannot
    be opened gives "0.0.0", and so does a file of blank and comment lines
    whose reading fails.  A file of blank and comment lines only that is
    read to its end does not: the version is then its last line, stripped
    (a comment or the empty string), and for an empty file the start-up
    fails with [NameError]. *)
Theorem appversion_without_version_line (vfile : TextFile) :
  (∀ l, l ∈ lines vfile →
        strip l = EmptyString ∨ String.substring 0 1 (strip l) = "#") →
  load_appversion None = Ok "0.0.0"
  ∧ load_appversion (Some vfile)
    = match failure vfile, last (lines vfile) with
      | Some _, _ => Ok "0.0.0"
      | None, Some l => Ok (strip l)
      | None, None =>
          Raise (OtherError "NameError" "name 'appversion' is not defined")
      end.
Proof.
  intros Hskip. split; [done|]. unfold load_appversion.
  assert (Hloop : ∀ start,
            appversion_loop (lines vfile) (failure vfile) start
            = match failure vfile with
              | Some e => Raise e
              | None => Ok (match last (lines vfile) with
                            | Some l => Some (strip l)
                            | None => start
                            end)
              end).
  { induction (lines vfile) as [|l rest IH]; intros start; [done|].
    rewrite appversion_loop_skip by (apply Hskip; by left).
    rewrite IH by (intros l' Hin; apply Hskip; by right).
    rewrite last_cons. by destruct (failure vfile), (last rest). }
  rewrite Hloop. by destruct (failure vfile), (last (lines vfile)).
Qed.

(** X16 for a file that holds two comment lines, the second one ending in
    a no-break space. *)
Lemma appversion_without_version_line_example :
  load_appversion None = Ok "0.0.0"
  ∧ load_appversion
      (Some {| lines := ["# PATE Monitor";
                         " # no version yet"
                         +:+ String (ascii_of_nat 160) EmptyString];
               failure := None |})
    = Ok "# no version yet".
Proof.
  apply (appversion_without_version_line
           {| lines := ["# PATE Monitor";
                        " # no version yet"
                        +:+ String (ascii_of_nat 160) EmptyString];
              failure := None |}).
  intros l Hin. apply elem_of_cons in Hin as [->|Hin]; [by right|].
  apply list_elem_of_singleton in Hin as ->. by right.
Defined.

(** X17.  After the configuration check both command settings hold a true
    value.  A setting that was true is kept; one that was missing or false
    (0, the empty string, [None]) becomes 1.0, the poll interval too; no
    other key changes. *)
Theorem check_command_config_defaults (config : gmap string value) :
  let checked := check_command_config config in
  truthy (config_get checked "COMMAND_TIMEOUT") = true
  ∧ truthy (config_get checked "COMMAND_POLL_INTERVAL") = true
  ∧ (∀ key, key = "COMMAND_TIMEOUT" ∨ key = "COMMAND_POLL_INTERVAL" →
       checked !! key
       = if truthy (config_get config key) then config !! key
         else Some (PyFloat 1%float))
  ∧ (∀ key, key ≠ "COMMAND_TIMEOUT" → key ≠ "COMMAND_POLL_INTERVAL" →
       checked !! key = config !! key).
Proof.
  cbv zeta. unfold check_command_config.
  assert (Hother : ∀ v, config_get (<["COMMAND_TIMEOUT" := v]> config)
                          "COMMAND_POLL_INTERVAL"
                        = config_get config "COMMAND_POLL_INTERVAL").
  { intros v. unfold config_get. by rewrite lookup_insert_ne. }
  destruct (truthy (config_get config "COMMAND_TIMEOUT")) eqn:Ht; simpl;
    rewrite ?Hother;
    destruct (truthy (config_get config "COMMAND_POLL_INTERVAL")) eqn:Hp;
    simpl.
  all: repeat split.
  all: try (intros key [-> | ->]).
  all: try (intros key Hk1 Hk2).
  all: unfold config_get in *.
  all: rewrite ?lookup_insert_eq, ?lookup_insert_ne, ?lookup_insert_eq by done.
  all: rewrite ?Ht, ?Hp; done.
Qed.

(** * Properties of the request hooks *)

(** [before_request] sets both timers on every path. *)
Lemma before_request_timers (perf_counter process_time : float)
    (config : gmap string value) (connect : value → result Connection)
    (execute : string → Connection → result Connection) (g : G) :
  t_real_start
    (before_request perf_counter process_time config connect execute g).1
  = Some perf_counter
  ∧ t_cpu_start
      (before_request perf_counter process_time config connect execute g).1
    = Some process_time.
Proof.
  unfold before_request. simpl.
  destruct (db g); [done|]. destruct (connect _); [|done].
  by destruct (execute _ _).
Qed.

(** X18.  When [before_request] returns, both timers are set to the
    readings taken, [g.db] holds an open-or-reused connection (one that was
    already there is kept as it is and nothing new is opened), and the
    [teardown_request] that follows returns normally with that connection
    closed. *)
Theorem before_request_then_teardown (perf_counter process_time : float)
    (config : gmap string value) (connect : value → result Connection)
    (execute : string → Connection → result Connection) (g g' : G) :
  before_request perf_counter process_time config connect execute g
  = (g', Ok ()) →
  t_real_start g' = Some perf_counter
  ∧ t_cpu_start g' = Some process_time
  ∧ ∃ conn,
      db g' = Some conn
      ∧ (∀ old, db g = Some old → conn = old)
      ∧ teardown_request g'
        = ({| t_real_start := Some perf_counter;
              t_cpu_start := Some process_time;
              db := Some (close conn) |}, Ok ())
      ∧ closed (close conn) = true.
Proof.
  unfold before_request. simpl. destruct (db g) as [old|] eqn:Hdb.
  - intros [= <-]. simpl. split; [done|]. split; [done|].
    exists old. repeat split; try done. by intros ? [= <-].
  - destruct (connect _) as [conn|]; [|done].
    destruct (execute _ conn) as [conn'|]; [|done].
    intros [= <-]. simpl. split; [done|]. split; [done|].
    exists conn'. by repeat split.
Qed.

(** X18 for the first request on a fresh [g]. *)
Lemma before_request_then_teardown_example :
  ∃ conn,
    teardown_request
      (before_request 10 0.25 ∅ Scenario.connect Scenario.execute
         Scenario.fresh_g).1
    = ({| t_real_start := Some 10%float; t_cpu_start := Some 0.25%float;
          db := Some (close conn) |}, Ok ())
    ∧ statements conn = ["PRAGMA foreign_keys = 1"]
    ∧ database conn = PyStr "pmapi.sqlite3".
Proof.
  destruct (before_request_then_teardown 10 0.25 ∅ Scenario.connect
              Scenario.execute Scenario.fresh_g
              (before_request 10 0.25 ∅ Scenario.connect Scenario.execute
                 Scenario.fresh_g).1 eq_refl)
    as (_ & _ & conn & Hdb & _ & Htear & _).
  exists conn. split; [exact Htear|].
  injection Hdb as <-. by split.
Defined.

(** X19.  Whatever happens to the connection, [before_request] leaves both
    timers set.  If [sqlite3.connect] raises, the error leaves
    [before_request], [g] has no connection, and [teardown_request] still
    returns normally.  A [teardown_request] that finds no [t_real_start]
    raises [AttributeError] before it looks at the connection, which stays
    as it was. *)
Theorem request_hooks_failures (perf_counter process_time : float)
    (config : gmap string value) (connect : value → result Connection)
    (execute : string → Connection → result Connection) (g : G) :
  let after :=
    before_request perf_counter process_time config connect execute g in
  t_real_start after.1 = Some perf_counter
  ∧ t_cpu_start after.1 = Some process_time
  ∧ (∀ e, db g = None →
       connect (from_option id (PyStr "pmapi.sqlite3")
                            (config !! "SQLITE3_DATABASE_FILE")) = Raise e →
       after.2 = Raise e ∧ db after.1 = None
       ∧ teardown_request after.1 = (after.1, Ok ()))
  ∧ (t_real_start g = None →
       teardown_request g = (g, Raise (AttributeError "t_real_start"))).
Proof.
  cbv zeta.
  split; [apply before_request_timers|]. split; [apply before_request_timers|].
  split.
  - unfold before_request. simpl. intros e -> ->. by simpl.
  - intros Hnone. unfold teardown_request. by rewrite Hnone.
Qed.

(** X20.  A response built during a request reports, as [t_cpu] and
    [t_real], the clock readings at that moment minus the readings
    [before_request] stored, whether or not the connection could be
    opened; only a failing [json.dumps] or a missing rule can then turn it
    into the fallback. *)
Theorem response_after_before_request (perf_counter process_time : float)
    (config : gmap string value) (connect : value → result Connection)
    (execute : string → Connection → result Connection) (g : G)
    (rt : Runtime) (code : Z) (payload : gmap string value)
    (text : string) (methods : list string) :
  let g' :=
    (before_request perf_counter process_time config connect execute g).1 in
  json_dumps rt
    (PyDict (<["api" := api_element (Api.apiversion rt)
                          (Api.process_time rt - process_time)%float
                          (Api.perf_counter rt - perf_counter)%float]> payload))
  = Ok text →
  url_rule_methods rt = Ok methods →
  ∃ r, __make_response (request_runtime g' rt) code payload = Ok r
       ∧ status_code r = code ∧ data r = text.
Proof.
  cbv zeta. intros Hdumps Hrule.
  destruct (before_request_timers perf_counter process_time config connect
              execute g) as [Hreal Hcpu].
  eexists. split.
  - apply (make_response_built _ code payload process_time perf_counter
             text methods).
    + simpl. by rewrite Hcpu.
    + simpl. by rewrite Hreal.
    + exact Hdumps.
    + exact Hrule.
  - done.
Qed.

(** X20 for a request answered with [{"data": 1}]. *)
Lemma response_after_before_request_example :
  ∃ r,
    __make_response
      (request_runtime
         (before_request 10 0.25 ∅ Scenario.connect Scenario.execute
            Scenario.fresh_g).1
         Example.runtime)
      200 {["data" := PyInt 1]}
    = Ok r
    ∧ status_code r = 200%Z ∧ data r = "api,data".
Proof.
  apply (response_after_before_request 10 0.25 ∅ Scenario.connect
           Scenario.execute Scenario.fresh_g Example.runtime 200
           {["data" := PyInt 1]} "api,data" ["GET"; "HEAD"; "OPTIONS"; "POST"]);
    vm_compute; reflexivity.
Defined.

(** * Properties of the schema script *)

Import CreateDatabaseRun.

Lemma format_drop (table : string) :
  format "DROP TABLE {}" [FStr table] = "DROP TABLE " +:+ table.
Proof.
  change (format _ _) with ("DROP TABLE " +:+ (table +:+ EmptyString)).
  by rewrite string_app_empty_r.
Qed.

Section script_properties.
Context {DB : Type} (execute : string → DB → DB * result unit).

(** The dropping loop issues one [DROP] per table, in order, and its flag
    stays true exactly while every outcome is tolerated. *)
Lemma drop_loop (names : list string) (st : DB * list string) (ok : bool) :
  ∃ db',
    foldl
      (λ '(st, ok) table,
         let '(st, r) :=
           run_execute execute (format "DROP TABLE {}" [FStr table]) st in
         match r with
         | Ok _ => (st, ok)
         | Raise e => if no_such e then (st, ok) else (st, false)
         end)
      (st, ok) names
    = ((db', st.2 ++ ((λ table, "DROP TABLE " +:+ table) <$> names)),
       ok && forallb tolerated (drop_results execute names st.1)).
Proof.
  match goal with |- context [foldl ?f] => set (step := f) end.
  revert st ok. induction names as [|table rest IH]; intros [db log] ok.
  - exists db. simpl. by rewrite app_nil_r, andb_true_r.
  - change (foldl step (db, log, ok) (table :: rest))
      with (foldl step (step (db, log, ok) table) rest).
    assert (Hstep : step (db, log, ok) table
                    = ((execute ("DROP TABLE " +:+ table) db).1,
                       log ++ ["DROP TABLE " +:+ table],
                       ok && tolerated (execute ("DROP TABLE " +:+ table) db).2)).
    { unfold step, run_execute. rewrite format_drop. simpl.
      destruct (execute ("DROP TABLE " +:+ table) db) as [db1 [u|e]]; simpl.
      - by rewrite andb_true_r.
      - destruct (no_such e); by rewrite ?andb_true_r, ?andb_false_r. }
    rewrite Hstep.
    destruct (IH ((execute ("DROP TABLE " +:+ table) db).1,
                  log ++ ["DROP TABLE " +:+ table])
                 (ok && tolerated (execute ("DROP TABLE " +:+ table) db).2))
      as [db' ->].
    exists db'. simpl. rewrite format_drop.
    destruct (execute ("DROP TABLE " +:+ table) db) as [db1 r]. simpl.
    by rewrite <- app_assoc, andb_assoc.
Qed.

(** Statements executed in a row are recorded up to the first failure,
    and all of them when none fails. *)
Lemma execute_all_log (statements : list string) (st : DB * list string) :
  ∃ k,
    (execute_all execute statements st).1.2 = st.2 ++ take k statements
    ∧ (∀ u, (execute_all execute statements st).2 = Ok u →
         take k statements = statements).
Proof.
  revert st. induction statements as [|sql rest IH]; intros [db log].
  - exists 0. simpl. by rewrite app_nil_r.
  - assert (Hcons : execute_all execute (sql :: rest) (db, log)
                    = match (execute sql db).2 with
                      | Ok _ =>
                          execute_all execute rest
                            ((execute sql db).1, log ++ [sql])
                      | Raise e => ((execute sql db).1, log ++ [sql], Raise e)
                      end).
    { simpl. unfold run_execute. simpl.
      by destruct (execute sql db) as [db1 [u|e]]. }
    rewrite Hcons. destruct (execute sql db) as [db1 [u|e]]; simpl.
    + destruct (IH (db1, log ++ [sql])) as (k & Hlog & Hall).
      exists (S k). simpl in *. rewrite Hlog, <- app_assoc. split; [done|].
      intros u' Hok. by rewrite (Hall u' Hok).
    + exists 1. simpl. by rewrite take_0.
Qed.

End script_properties.

Section script_run.
Context {DB : Type} (execute : string → DB → DB * result unit).

(** The run on a database file that exists and opens, phase by phase. *)
Lemma main_phases (db : DB) :
  main execute true (Ok db)
  = let pragma := execute "PRAGMA foreign_keys = 1" db in
    match pragma.2 with
    | Raise e =>
        {| executed := ["PRAGMA foreign_keys = 1"]; conn_closed := false;
           ended := Raised e |}
    | Ok _ =>
        let dropped :=
          drop_tables execute (pragma.1, ["PRAGMA foreign_keys = 1"]) in
        if negb dropped.2 then
          {| executed := dropped.1.2; conn_closed := false;
             ended := Exited (-1) |}
        else
          let vacuum := execute "vacuum" dropped.1.1 in
          match vacuum.2 with
          | Raise e =>
              {| executed := dropped.1.2 ++ ["vacuum"]; conn_closed := false;
                 ended := Raised e |}
          | Ok _ =>
              let created :=
                execute_all execute create_statements
                  (vacuum.1, dropped.1.2 ++ ["vacuum"]) in
              {| executed := created.1.2; conn_closed := true;
                 ended := match created.2 with
                          | Ok _ => Completed
                          | Raise e => Raised e
                          end |}
          end
    end.
Proof.
  unfold main, run_execute. cbn [fst snd negb app].
  destruct (execute "PRAGMA foreign_keys = 1" db) as [db1 [u|e]];
    cbn [fst snd]; [|done].
  destruct (drop_tables execute (db1, ["PRAGMA foreign_keys = 1"]))
    as [[db2 log] ok]; cbn [fst snd].
  destruct ok; cbn [negb]; [|done].
  destruct (execute "vacuum" db2) as [db3 [u'|e]]; cbn [fst snd]; [|done].
  by destruct (execute_all execute create_statements (db3, log ++ ["vacuum"]))
    as [[db4 log'] r].
Qed.

Lemma drop_tables_log (st : DB * list string) :
  (drop_tables execute st).1.2
  = st.2 ++ ((λ table, "DROP TABLE " +:+ table) <$> tables)
  ∧ (drop_tables execute st).2
    = forallb tolerated (drop_results execute tables st.1).
Proof.
  unfold drop_tables. destruct (drop_loop execute tables st true) as [db' ->].
  by split.
Qed.

(** X21.  Once the pragma has run, the script issues the nine [DROP]
    statements in the order of [tables], each of them whatever happened to
    the ones before.  If any of them failed with a message that does not
    start with "no such", the script exits with -1 right after the last
    one, the connection still open; otherwise it goes on to [vacuum]. *)
Theorem drop_phase (db : DB) :
  (∃ u, (execute "PRAGMA foreign_keys = 1" db).2 = Ok u) →
  let run := main execute true (Ok db) in
  let results :=
    drop_results execute tables (execute "PRAGMA foreign_keys = 1" db).1 in
  take 10 (executed run)
  = "PRAGMA foreign_keys = 1" :: ((λ table, "DROP TABLE " +:+ table) <$> tables)
  ∧ (forallb tolerated results = false →
       executed run
       = "PRAGMA foreign_keys = 1"
         :: ((λ table, "DROP TABLE " +:+ table) <$> tables)
       ∧ ended run = Exited (-1) ∧ conn_closed run = false)
  ∧ (forallb tolerated results = true →
       take 11 (executed run)
       = "PRAGMA foreign_keys = 1"
         :: ((λ table, "DROP TABLE " +:+ table) <$> tables) ++ ["vacuum"]).
Proof.
  intros [u Hpragma]. cbv zeta. rewrite main_phases. cbv zeta.
  destruct (execute "PRAGMA foreign_keys = 1" db) as [db1 r0].
  cbn [fst snd] in *. subst r0.
  destruct (drop_tables_log (db1, ["PRAGMA foreign_keys = 1"])) as [Hlog Hok].
  cbn [fst snd] in Hlog, Hok.
  destruct (drop_tables execute (db1, ["PRAGMA foreign_keys = 1"]))
    as [[db2 log] ok].
  cbn [fst snd] in *. subst log ok.
  destruct (forallb tolerated _) eqn:Hall; cbn [negb].
  - destruct (execute "vacuum" db2) as [db3 [u'|e]]; cbn [fst snd].
    + destruct (execute_all_log execute create_statements
                  (db3, ["PRAGMA foreign_keys = 1"]
                        ++ ((λ table, "DROP TABLE " +:+ table) <$> tables)
                        ++ ["vacuum"]))
        as (k & Hcreated & _).
      rewrite <- app_assoc.
      destruct (execute_all execute create_statements _) as [[db4 log] r].
      cbn [fst snd executed] in *. subst log. by repeat split.
    + cbn [executed]. by repeat split.
  - cbn [executed ended conn_closed]. by repeat split.
Qed.

(** X22.  Whatever the database does, the statements a run executes are
    an initial part of one fixed sequence: the pragma, the nine drops,
    [vacuum], the ten creating statements.  A run that completes has
    executed all of them and closed the connection; a run that ends in
    [os._exit] has status -1, has created nothing and has not closed the
    connection; and the connection is closed only by runs that got as far
    as creating. *)
Theorem run_in_order (is_file : bool) (connect : result DB) :
  let run := main execute is_file connect in
  executed run `prefix_of` all_statements
  ∧ (ended run = Completed →
       executed run = all_statements ∧ conn_closed run = true)
  ∧ (∀ status, ended run = Exited status →
       status = (-1)%Z ∧ conn_closed run = false
       ∧ executed run `prefix_of` take 10 all_statements)
  ∧ (conn_closed run = true → take 11 all_statements `prefix_of` executed run).
Proof.
  cbv zeta. destruct is_file.
  2: { cbn. split; [apply prefix_nil|]. split; [done|]. split; [|done].
       intros status [= <-]. split; [done|]. split; [done|]. apply prefix_nil. }
  destruct connect as [db|e].
  2: { cbn. split; [apply prefix_nil|]. by repeat split. }
  rewrite main_phases. cbv zeta.
  destruct (execute "PRAGMA foreign_keys = 1" db) as [db1 [u|e]];
    cbn [fst snd].
  2: { cbn [executed ended conn_closed].
       split; [by apply prefix_cons, prefix_nil|]. by repeat split. }
  destruct (drop_tables_log (db1, ["PRAGMA foreign_keys = 1"])) as [Hlog _].
  cbn [fst snd] in Hlog.
  destruct (drop_tables execute (db1, ["PRAGMA foreign_keys = 1"]))
    as [[db2 log] ok].
  cbn [fst snd] in *. subst log.
  destruct ok; cbn [negb].
  2: { cbn [executed ended conn_closed].
       split; [by apply prefix_cons, prefix_app_r|]. split; [done|].
       split; [|done]. intros status [= <-]. split; [done|]. split; [done|].
       exists []. by rewrite app_nil_r. }
  destruct (execute "vacuum" db2) as [db3 [u'|e]]; cbn [fst snd].
  2: { cbn [executed ended conn_closed].
       split; [|by repeat split].
       rewrite <- app_assoc. apply prefix_cons, prefix_app.
       by apply prefix_app_r. }
  destruct (execute_all_log execute create_statements
              (db3, (["PRAGMA foreign_keys = 1"]
                     ++ ((λ table, "DROP TABLE " +:+ table) <$> tables))
                    ++ ["vacuum"]))
    as (k & Hcreated & Hall).
  destruct (execute_all execute create_statements _) as [[db4 log] r].
  cbn [fst snd executed ended conn_closed] in *. subst log.
  split; [|split; [|split]].
  - rewrite <- !app_assoc. apply prefix_cons, prefix_app.
    apply (prefix_app ["vacuum"]), prefix_take.
  - destruct r as [u''|e]; [|done]. intros _.
    rewrite (Hall u'' eq_refl). split; [|done]. unfold all_statements.
    by rewrite <- !app_assoc.
  - by destruct r.
  - intros _. by eexists.
Qed.

End script_run.

(** X21 on a database where [DROP TABLE pate] fails with "database is
    locked": all nine drops are issued, then the script exits. *)
Lemma drop_phase_locked :
  take 10 (executed (main Scenario.locked true (Ok ())))
  = "PRAGMA foreign_keys = 1" :: ((λ table, "DROP TABLE " +:+ table) <$> tables)
  ∧ ended (main Scenario.locked true (Ok ())) = Exited (-1).
Proof.
  destruct (drop_phase Scenario.locked ()) as (Hten & Hfatal & _).
  - by eexists.
  - split; [exact Hten|]. by destruct Hfatal as (_ & Hexit & _).
Defined.
